(** * Contact tier resolution: a shallow embedding of
      [src/utils/helpers.py] (phone normalisation) and
      [src/core/contact_tier_manager.py] (tier matching, contact cache,
      tier mutation, templates, statistics).

    Python [str] values are modelled as Rocq strings over the ASCII
    repertoire: [lower] and [strip] act on code points below 128 the way
    [str.lower] and [str.strip] do, and the regular expression class [\d]
    is the ten ASCII digits.  Dictionaries loaded from JSON are finite
    maps; a key that the code reads with [.get(key, default)] is an
    optional field.  The JSON values are taken to have the types of the
    documented schema (lists of strings, booleans, strings). *)

From Stdlib Require Import Ascii String List Bool Arith Lia.
From stdpp Require Import base option list strings gmap fin_maps.

Local Open Scope string_scope.
Local Open Scope list_scope.
Local Open Scope nat_scope.

(** ** Python string primitives *)

Module PyStr.

Definition code (c : ascii) : nat := nat_of_ascii c.

(** [c.isupper()] on ASCII: 'A'..'Z'. *)
Definition is_upper (c : ascii) : bool :=
  (65 <=? code c) && (code c <=? 90).

(** [c.isspace()] on ASCII: TAB, LF, VT, FF, CR, FS, GS, RS, US, SPACE. *)
Definition is_space (c : ascii) : bool :=
  ((9 <=? code c) && (code c <=? 13))
  || ((28 <=? code c) && (code c <=? 31))
  || (code c =? 32).

(** The class [\d]. *)
Definition is_digit (c : ascii) : bool :=
  (48 <=? code c) && (code c <=? 57).

Definition plus_sign : ascii := "+"%char.

Definition lower_char (c : ascii) : ascii :=
  if is_upper c then ascii_of_nat (code c + 32) else c.

(** [s.lower()] *)
Fixpoint lower (s : string) : string :=
  match s with
  | EmptyString => EmptyString
  | String c s' => String (lower_char c) (lower s')
  end.

(** [s.lstrip()] *)
Fixpoint lstrip (s : string) : string :=
  match s with
  | EmptyString => EmptyString
  | String c s' => if is_space c then lstrip s' else s
  end.

Definition is_empty (s : string) : bool :=
  match s with EmptyString => true | String _ _ => false end.

(** [s.rstrip()] *)
Fixpoint rstrip (s : string) : string :=
  match s with
  | EmptyString => EmptyString
  | String c s' =>
      let r := rstrip s' in
      if is_space c && is_empty r then EmptyString else String c r
  end.

(** [s.strip()] *)
Definition strip (s : string) : string := rstrip (lstrip s).

(** Keep the characters satisfying [keep]: [re.sub] of the complement
    class by the empty string. *)
Fixpoint keep_chars (keep : ascii -> bool) (s : string) : string :=
  match s with
  | EmptyString => EmptyString
  | String c s' =>
      if keep c then String c (keep_chars keep s') else keep_chars keep s'
  end.

(** [ch in s] for a one-character [ch]. *)
Fixpoint contains_char (ch : ascii) (s : string) : bool :=
  match s with
  | EmptyString => false
  | String c s' => Ascii.eqb c ch || contains_char ch s'
  end.

(** [s.split(sep)] for a one-character separator: never the empty list. *)
Fixpoint split (sep : ascii) (s : string) : list string :=
  match s with
  | EmptyString => [EmptyString]
  | String c s' =>
      if Ascii.eqb c sep then EmptyString :: split sep s'
      else match split sep s' with
           | [] => [String c EmptyString]
           | h :: t => String c h :: t
           end
  end.

(** [''.join(parts)] *)
Fixpoint join (parts : list string) : string :=
  match parts with
  | [] => EmptyString
  | p :: ps => p +:+ join ps
  end.

(** [needle in hay] for strings: substring test. *)
Fixpoint is_substring (needle hay : string) : bool :=
  String.prefix needle hay
  || match hay with
     | EmptyString => false
     | String _ hay' => is_substring needle hay'
     end.

(** [x in l] for a list of strings. *)
Definition elem (x : string) (l : list string) : bool :=
  existsb (String.eqb x) l.

(** Truth value of an [Optional[str]] in a condition: [None] and the
    empty string are falsy. *)
Definition truthy (o : option string) : bool :=
  match o with
  | Some s => negb (is_empty s)
  | None => false
  end.

(** [o or d] for an [Optional[str]] on the left. *)
Definition or_else (o : option string) (d : string) : string :=
  match o with
  | Some s => if is_empty s then d else s
  | None => d
  end.

(** [l.remove(x)] when [x in l]: drops the first occurrence. *)
Fixpoint remove_first (x : string) (l : list string) : list string :=
  match l with
  | [] => []
  | y :: l' => if String.eqb x y then l' else y :: remove_first x l'
  end.

End PyStr.

(** ** [src/utils/helpers.py] *)

Module helpers.
Import PyStr.

(** The class [[^\d+]] is removed, so digits and '+' are kept. *)
Definition digit_or_plus (c : ascii) : bool :=
  is_digit c || Ascii.eqb c plus_sign.

(** [phone] may be [None]: the guard [if not phone] covers [None] and the
    empty string alike. *)
Definition sanitize_phone_number (phone : option string) : string :=
  match phone with
  | None => EmptyString
  | Some phone =>
      if is_empty phone then EmptyString
      else
        let cleaned := keep_chars digit_or_plus phone in
        if contains_char plus_sign cleaned then
          let parts := split plus_sign cleaned in
          "+" +:+ join (tl parts)
        else cleaned
  end.

End helpers.


(** ** [src/core/contact_tier_manager.py]: data *)

(** Exceptions the modelled code can raise. *)
Inductive exn : Type :=
| ValueError (msg : string)
| NameError (name : string)
| OSError
| ConfigurationError (cause : exn).

Inductive result (A : Type) : Type :=
| Ok (a : A)
| Raise (e : exn).

Arguments Ok {A} a.
Arguments Raise {A} e.

(** [class ContactTier(Enum)] *)
Inductive ContactTier : Type :=
| MAIN_CONTACTS
| TIME_PASS
| NOT_IMPORTANT.

(** [tier.value] *)
Definition value (t : ContactTier) : string :=
  match t with
  | MAIN_CONTACTS => "main_contacts"
  | TIME_PASS => "time_pass_contacts"
  | NOT_IMPORTANT => "not_important"
  end.

(** The call [ContactTier(v)]: lookup by value, [ValueError] when no member
    has that value. *)
Definition ContactTier_of_value (v : string) : result ContactTier :=
  if String.eqb v (value MAIN_CONTACTS) then Ok MAIN_CONTACTS
  else if String.eqb v (value TIME_PASS) then Ok TIME_PASS
  else if String.eqb v (value NOT_IMPORTANT) then Ok NOT_IMPORTANT
  else Raise (ValueError v).

(** [@dataclass class ContactSettings] *)
Module ContactSettings.
Record t : Type := mk {
  open_and_read : bool;
  play_sound : bool;
  reply_mode : string;
  mark_as_read : bool;
  priority_level : string
}.
End ContactSettings.

(** [@dataclass class ContactInfo] *)
Module ContactInfo.
Record t : Type := mk {
  name : string;
  phone : string;
  tier : ContactTier;
  settings : ContactSettings.t;
  last_interaction : option string
}.
End ContactInfo.

(** The JSON object under a tier's ["settings"] key. *)
Module SettingsData.
Record t : Type := mk {
  open_and_read : option bool;
  play_sound : option bool;
  reply_mode : option string;
  mark_as_read : option bool;
  priority_level : option string
}.
Definition empty : t := mk None None None None None.
End SettingsData.

(** The JSON object of one tier. *)
Module TierData.
Record t : Type := mk {
  description : option string;
  by_name : option (list string);
  by_phone : option (list string);
  by_keywords : option (list string);
  settings : option SettingsData.t
}.
(** The empty dict [{}]. *)
Definition empty : t := mk None None None None None.
End TierData.

(** The JSON object under ["default_settings"]. *)
Module DefaultSettings.
Record t : Type := mk {
  uncategorized_contacts : option string;
  new_contact_behavior : option string;
  auto_categorize : option bool
}.
Definition empty : t := mk None None None.
End DefaultSettings.

(** The dict [self.contact_tiers] (the ruleset file). *)
Module Config.
Record t : Type := mk {
  contact_tiers : option (gmap string TierData.t);
  default_settings : option DefaultSettings.t
}.
End Config.

(** The dict [self.message_templates] (the template file). *)
Module Templates.
Record t : Type := mk {
  templates : option (gmap string (gmap string string));
  ai_prompts : option (gmap string string)
}.
End Templates.

(** The value stored per tier by [get_tier_statistics]. *)
Module TierStats.
Record t : Type := mk {
  by_name : nat;
  by_phone : nat;
  total : nat
}.
End TierStats.

(** The mutable attributes of a [ContactTierManager] instance. *)
Record ContactTierManager : Type := mkManager {
  contact_tiers : Config.t;
  message_templates : Templates.t;
  contact_cache : gmap string ContactInfo.t
}.

(** ** State and exceptions: methods that mutate [self] *)

Definition M (A : Type) : Type :=
  ContactTierManager -> result A * ContactTierManager.

Definition ret {A : Type} (a : A) : M A := fun self => (Ok a, self).

Definition raise {A : Type} (e : exn) : M A := fun self => (Raise e, self).

Definition bind {A B : Type} (m : M A) (k : A -> M B) : M B :=
  fun self =>
    match m self with
    | (Ok a, self') => k a self'
    | (Raise e, self') => (Raise e, self')
    end.

(** [try: m  except Exception as e: h e] *)
Definition try_except {A : Type} (m : M A) (h : exn -> M A) : M A :=
  fun self =>
    match m self with
    | (Ok a, self') => (Ok a, self')
    | (Raise e, self') => h e self'
    end.

Definition get_self : M ContactTierManager := fun self => (Ok self, self).

Definition lift {A : Type} (r : result A) : M A := fun self => (r, self).

Definition set_contact_tiers (cfg : Config.t) : M unit :=
  fun self =>
    (Ok tt, mkManager cfg (message_templates self) (contact_cache self)).

Definition set_contact_cache (cache : gmap string ContactInfo.t) : M unit :=
  fun self =>
    (Ok tt, mkManager (contact_tiers self) (message_templates self) cache).

Notation "'let*' x ':=' m 'in' k" :=
  (bind m (fun x => k))
  (at level 10, x name, m at level 100, k at level 200, only parsing).

Notation "'let*' ' p ':=' m 'in' k" :=
  (bind m (fun x => match x with p => k end))
  (at level 10, p pattern, m at level 100, k at level 200, only parsing).

(** ** [src/core/contact_tier_manager.py]: methods *)

Import PyStr.
Import helpers.

(** The default ruleset written by [_load_contact_tiers] when the file
    does not exist. *)
Definition default_config : Config.t :=
  Config.mk
    (Some
       (<["main_contacts" :=
            TierData.mk
              (Some "VIP contacts - Full attention with notifications")
              (Some []) (Some []) None
              (Some (SettingsData.mk (Some true) (Some true)
                       (Some "informative_ai") (Some true) (Some "high")))]>
        (<["time_pass_contacts" :=
            TierData.mk
              (Some "Casual contacts - Basic auto-replies")
              (Some []) (Some []) None
              (Some (SettingsData.mk (Some false) (Some false)
                       (Some "template_basic") (Some true) (Some "medium")))]>
        (<["not_important" :=
            TierData.mk
              (Some "Low priority - Log only, no replies")
              (Some []) (Some []) (Some ["promotion"; "spam"; "offer"])
              (Some (SettingsData.mk (Some false) (Some false)
                       (Some "none") (Some false) (Some "low")))]>
         ∅))))
    (Some (DefaultSettings.mk (Some "not_important") (Some "ask_user")
             (Some false))).

(** [__init__] followed by [_load_contact_tiers] and
    [_load_message_templates]: [config_file] is the parsed ruleset file when
    it exists ([None]: the default ruleset is written and used);
    [templates_file] is the parsed template file.  The cache starts
    empty. *)
Definition load_configurations
    (config_file : option Config.t) (templates_file : Templates.t)
  : ContactTierManager :=
  mkManager (default default_config config_file) templates_file ∅.

(** [self.contact_tiers.get("contact_tiers", {}).get(tier.value, {})] *)
Definition tier_data_of (self : ContactTierManager) (tier : ContactTier)
  : TierData.t :=
  default TierData.empty
    (default ∅ (Config.contact_tiers (contact_tiers self)) !! value tier).

(** [name.lower().strip()] *)
Definition clean_name_of (contact_name : string) : string :=
  strip (lower contact_name).

(** [sanitize_phone_number(phone_number) if phone_number else None] *)
Definition clean_phone_of (phone_number : option string) : option string :=
  if truthy phone_number then Some (sanitize_phone_number phone_number)
  else None.

Definition _is_contact_in_tier (self : ContactTierManager)
    (contact_name : string) (phone_number : option string)
    (tier : ContactTier) : bool :=
  let tier_data := tier_data_of self tier in
  (* Check by name *)
  let tier_names :=
    map clean_name_of (default [] (TierData.by_name tier_data)) in
  if elem contact_name tier_names then true
  else
    (* Check by phone number *)
    let by_phone_hit :=
      match phone_number with
      | Some pn =>
          if truthy phone_number then
            let tier_phones :=
              map (fun phone => sanitize_phone_number (Some phone))
                  (default [] (TierData.by_phone tier_data)) in
            elem pn tier_phones
          else false
      | None => false
      end in
    if by_phone_hit then true
    else
      (* Check by keywords *)
      let keywords := default [] (TierData.by_keywords tier_data) in
      existsb (fun keyword => is_substring (lower keyword) contact_name)
              keywords.

Definition _get_tier_settings (self : ContactTierManager)
    (tier : ContactTier) : ContactSettings.t :=
  let tier_data := tier_data_of self tier in
  let settings_data :=
    default SettingsData.empty (TierData.settings tier_data) in
  ContactSettings.mk
    (default false (SettingsData.open_and_read settings_data))
    (default false (SettingsData.play_sound settings_data))
    (default "none" (SettingsData.reply_mode settings_data))
    (default false (SettingsData.mark_as_read settings_data))
    (default "low" (SettingsData.priority_level settings_data)).

Definition tier_priority : list ContactTier :=
  [MAIN_CONTACTS; TIME_PASS; NOT_IMPORTANT].

(** The loop [for tier in tier_priority] with its early [return]. *)
Fixpoint first_matching_tier (self : ContactTierManager)
    (clean_name : string) (clean_phone : option string)
    (tiers : list ContactTier) : option ContactTier :=
  match tiers with
  | [] => None
  | tier :: tiers' =>
      if _is_contact_in_tier self clean_name clean_phone tier then Some tier
      else first_matching_tier self clean_name clean_phone tiers'
  end.

(** [self.contact_tiers.get("default_settings", {}).get(
      "uncategorized_contacts", "not_important")] *)
Definition default_tier_name (self : ContactTierManager) : string :=
  default "not_important"
    (DefaultSettings.uncategorized_contacts
       (default DefaultSettings.empty
          (Config.default_settings (contact_tiers self)))).

Definition categorize_contact (self : ContactTierManager)
    (contact_name : string) (phone_number : option string)
  : result (ContactTier * ContactSettings.t) :=
  let clean_name := clean_name_of contact_name in
  let clean_phone := clean_phone_of phone_number in
  match first_matching_tier self clean_name clean_phone tier_priority with
  | Some tier => Ok (tier, _get_tier_settings self tier)
  | None =>
      match ContactTier_of_value (default_tier_name self) with
      | Ok default_tier =>
          Ok (default_tier, _get_tier_settings self default_tier)
      | Raise e => Raise e
      end
  end.

(** [f"{contact_name}:{phone_number or 'no_phone'}"] *)
Definition cache_key (contact_name : string) (phone_number : option string)
  : string :=
  contact_name +:+ ":" +:+ or_else phone_number "no_phone".

Definition get_contact_info (contact_name : string)
    (phone_number : option string) : M ContactInfo.t :=
  let* self := get_self in
  (* Check cache first *)
  match contact_cache self !! cache_key contact_name phone_number with
  | Some contact_info => ret contact_info
  | None =>
      let* ' (tier, settings) :=
        lift (categorize_contact self contact_name phone_number) in
      let contact_info :=
        ContactInfo.mk contact_name (or_else phone_number EmptyString) tier settings
                       None in
      let* _ :=
        set_contact_cache
          (<[cache_key contact_name phone_number := contact_info]>
             (contact_cache self)) in
      ret contact_info
  end.

Definition should_reply_to_contact (contact_name : string)
    (phone_number : option string) : M bool :=
  let* contact_info := get_contact_info contact_name phone_number in
  ret (negb (String.eqb
               (ContactSettings.reply_mode (ContactInfo.settings contact_info))
               "none")).

Definition should_play_notification (contact_name : string)
    (phone_number : option string) : M bool :=
  let* contact_info := get_contact_info contact_name phone_number in
  ret (ContactSettings.play_sound (ContactInfo.settings contact_info)).

Definition should_open_and_read (contact_name : string)
    (phone_number : option string) : M bool :=
  let* contact_info := get_contact_info contact_name phone_number in
  ret (ContactSettings.open_and_read (ContactInfo.settings contact_info)).

(** [self.message_templates.get("templates", {}).get(tier.value, {})] *)
Definition tier_templates_of (self : ContactTierManager)
    (tier : ContactTier) : gmap string string :=
  default ∅
    (default ∅ (Templates.templates (message_templates self)) !! value tier).

Definition get_reply_template (contact_name : string)
    (phone_number : option string) (template_type : string) : M string :=
  let* contact_info := get_contact_info contact_name phone_number in
  let* self := get_self in
  let tier_templates :=
    tier_templates_of self (ContactInfo.tier contact_info) in
  (* Try to get specific template, fall back to default *)
  ret (or_else (tier_templates !! template_type)
               (default EmptyString (tier_templates !! "default"))).

Definition get_ai_prompt (contact_name : string)
    (phone_number : option string) : M string :=
  let* contact_info := get_contact_info contact_name phone_number in
  let* self := get_self in
  ret (default "You are a helpful assistant."
         (default ∅ (Templates.ai_prompts (message_templates self))
            !! value (ContactInfo.tier contact_info))).

(** [_save_contact_tiers]: writing the file either succeeds or raises
    [OSError]; [io_ok] is the outcome of the write.  The file's content is
    outside the model. *)
Definition _save_contact_tiers (io_ok : bool) : M unit :=
  if io_ok then ret tt else raise OSError.

(** [if x not in l: l.append(x)] *)
Definition append_if_absent (x : string) (l : list string) : list string :=
  if elem x l then l else l ++ [x].

(** The in-place updates of [add_contact_to_tier] on the tier's dict:
    [setdefault("by_name", [])], the guarded append of [contact_name] as it
    was passed, and, for a truthy [phone_number],
    [setdefault("by_phone", [])] and the guarded append of the sanitized
    phone. *)
Definition add_entries (contact_name : string) (phone_number : option string)
    (tier_data : TierData.t) : TierData.t :=
  let names_list := default [] (TierData.by_name tier_data) in
  let names_list := append_if_absent contact_name names_list in
  let by_phone :=
    if truthy phone_number then
      let phones_list := default [] (TierData.by_phone tier_data) in
      let clean_phone := sanitize_phone_number phone_number in
      Some (append_if_absent clean_phone phones_list)
    else TierData.by_phone tier_data in
  TierData.mk (TierData.description tier_data) (Some names_list) by_phone
              (TierData.by_keywords tier_data) (TierData.settings tier_data).

(** [self.contact_tiers.setdefault("contact_tiers", {})
      .setdefault(tier.value, {})] followed by the updates above. *)
Definition add_to_config (contact_name : string)
    (phone_number : option string) (tier : ContactTier) (cfg : Config.t)
  : Config.t :=
  let tiers := default ∅ (Config.contact_tiers cfg) in
  let tier_data := default TierData.empty (tiers !! value tier) in
  Config.mk
    (Some (<[value tier := add_entries contact_name phone_number tier_data]>
             tiers))
    (Config.default_settings cfg).

(** [if cache_key in self.contact_cache: del self.contact_cache[cache_key]] *)
Definition invalidate (contact_name : string) (phone_number : option string)
  : M unit :=
  let* self := get_self in
  set_contact_cache
    (delete (cache_key contact_name phone_number) (contact_cache self)).

Definition add_contact_to_tier (io_ok : bool) (contact_name : string)
    (phone_number : option string) (tier : ContactTier) : M bool :=
  try_except
    (let* self := get_self in
     let* _ :=
       set_contact_tiers
         (add_to_config contact_name phone_number tier (contact_tiers self)) in
     (* Save configuration *)
     let* _ := _save_contact_tiers io_ok in
     (* Clear cache for this contact *)
     let* _ := invalidate contact_name phone_number in
     ret true)
    (fun e => raise (ConfigurationError e)).

(** [if x in l: l.remove(x)] *)
Definition remove_if_present (x : string) (l : list string) : list string :=
  if elem x l then remove_first x l else l.

(** The in-place updates of [remove_contact_from_tier]; the lists are read
    with [.get(key, [])], so an absent key stays absent. *)
Definition remove_entries (contact_name : string)
    (phone_number : option string) (tier_data : TierData.t) : TierData.t :=
  let by_name :=
    option_map (remove_if_present contact_name) (TierData.by_name tier_data) in
  let by_phone :=
    if truthy phone_number then
      option_map (remove_if_present (sanitize_phone_number phone_number))
                 (TierData.by_phone tier_data)
    else TierData.by_phone tier_data in
  TierData.mk (TierData.description tier_data) by_name by_phone
              (TierData.by_keywords tier_data) (TierData.settings tier_data).

(** The tier's dict is read with [.get(..., {})]: when the tier (or the
    whole ["contact_tiers"] key) is absent the updates hit a temporary dict
    and the ruleset is unchanged. *)
Definition remove_from_config (contact_name : string)
    (phone_number : option string) (tier : ContactTier) (cfg : Config.t)
  : Config.t :=
  match Config.contact_tiers cfg with
  | None => cfg
  | Some tiers =>
      match tiers !! value tier with
      | None => cfg
      | Some tier_data =>
          Config.mk
            (Some (<[value tier :=
                       remove_entries contact_name phone_number tier_data]>
                     tiers))
            (Config.default_settings cfg)
      end
  end.

Definition remove_contact_from_tier (io_ok : bool) (contact_name : string)
    (phone_number : option string) (tier : ContactTier) : M bool :=
  try_except
    (let* self := get_self in
     let* _ :=
       set_contact_tiers
         (remove_from_config contact_name phone_number tier
            (contact_tiers self)) in
     let* _ := _save_contact_tiers io_ok in
     let* _ := invalidate contact_name phone_number in
     ret true)
    (fun e => raise (ConfigurationError e)).

Definition clear_contact_cache : M unit := set_contact_cache ∅.

(** The dict [stats] built by the loop of [get_tier_statistics]. *)
Definition tier_counts (tier_data : TierData.t) : TierStats.t :=
  let name_count := length (default [] (TierData.by_name tier_data)) in
  let phone_count := length (default [] (TierData.by_phone tier_data)) in
  TierStats.mk name_count phone_count (name_count + phone_count).

Definition stats_of (self : ContactTierManager) : gmap string TierStats.t :=
  tier_counts <$> default ∅ (Config.contact_tiers (contact_tiers self)).

(** Names bound where the body of [get_tier_statistics] runs: its locals
    and the globals of the module (imports, classes).  No builtin has a
    one-letter name. *)
Definition locals_of_get_tier_statistics : list string :=
  ["self"; "stats"; "tier_name"; "tier_data"; "name_count"; "phone_count"].

Definition module_globals : list string :=
  ["json"; "asyncio"; "Dict"; "Any"; "Optional"; "Tuple"; "List"; "Path";
   "dataclass"; "Enum"; "ConfigurationError"; "sanitize_phone_number";
   "clean_message_text"; "ContactTier"; "ContactSettings"; "ContactInfo";
   "ContactTierManager"].

(** Evaluating a bare name as an expression statement: [NameError] when the
    name is bound nowhere. *)
Definition load_name (scope : list string) (x : string) : result unit :=
  if elem x scope then Ok tt else Raise (NameError x).

(** The body is: build [stats]; the expression statement [s] (line 521);
    [return stats]. *)
Definition get_tier_statistics (self : ContactTierManager)
  : result (gmap string TierStats.t) :=
  let stats := stats_of self in
  match load_name (locals_of_get_tier_statistics ++ module_globals) "s" with
  | Raise e => Raise e
  | Ok _ => Ok stats
  end.

(** ** Steps of a manager's life, for invariants over reachable states *)

Inductive call : Type :=
| CallGetContactInfo (contact_name : string) (phone_number : option string)
| CallAdd (io_ok : bool) (contact_name : string)
          (phone_number : option string) (tier : ContactTier)
| CallRemove (io_ok : bool) (contact_name : string)
             (phone_number : option string) (tier : ContactTier)
| CallClear.

Definition run_call (c : call) (self : ContactTierManager)
  : ContactTierManager :=
  match c with
  | CallGetContactInfo n p => snd (get_contact_info n p self)
  | CallAdd io n p t => snd (add_contact_to_tier io n p t self)
  | CallRemove io n p t => snd (remove_contact_from_tier io n p t self)
  | CallClear => snd (clear_contact_cache self)
  end.

Definition run_calls (cs : list call) (self : ContactTierManager)
  : ContactTierManager :=
  fold_left (fun st c => run_call c st) cs self.

(** ** Vocabulary of the properties *)

(** Position of a tier in [tier_priority]. *)
Definition rank (t : ContactTier) : nat :=
  match t with
  | MAIN_CONTACTS => 0
  | TIME_PASS => 1
  | NOT_IMPORTANT => 2
  end.

(** [t'] is scanned before [t]. *)
Definition precedes (t' t : ContactTier) : Prop := rank t' < rank t.

Definition substring_of (needle hay : string) : Prop :=
  exists pre post, hay = pre +:+ needle +:+ post.

Definition names_of (self : ContactTierManager) (tier : ContactTier)
  : list string :=
  default [] (TierData.by_name (tier_data_of self tier)).

Definition phones_of (self : ContactTierManager) (tier : ContactTier)
  : list string :=
  default [] (TierData.by_phone (tier_data_of self tier)).

Definition keywords_of (self : ContactTierManager) (tier : ContactTier)
  : list string :=
  default [] (TierData.by_keywords (tier_data_of self tier)).

(** A contact matches a tier by name, by phone or by keyword. *)
Definition matches_by_name (self : ContactTierManager)
    (contact_name : string) (tier : ContactTier) : Prop :=
  exists n, In n (names_of self tier)
            /\ clean_name_of n = clean_name_of contact_name.

Definition matches_by_phone (self : ContactTierManager)
    (phone_number : option string) (tier : ContactTier) : Prop :=
  exists p, In p (phones_of self tier)
            /\ truthy phone_number = true
            /\ sanitize_phone_number phone_number <> EmptyString
            /\ sanitize_phone_number (Some p)
               = sanitize_phone_number phone_number.

Definition matches_by_keyword (self : ContactTierManager)
    (contact_name : string) (tier : ContactTier) : Prop :=
  exists kw, In kw (keywords_of self tier)
             /\ substring_of (lower kw) (clean_name_of contact_name).

Definition tier_matches (self : ContactTierManager) (contact_name : string)
    (phone_number : option string) (tier : ContactTier) : Prop :=
  matches_by_name self contact_name tier
  \/ matches_by_phone self phone_number tier
  \/ matches_by_keyword self contact_name tier.

(** The value configured under [default_settings.uncategorized_contacts],
    if any. *)
Definition configured_default (self : ContactTierManager) : option string :=
  match Config.default_settings (contact_tiers self) with
  | Some ds => DefaultSettings.uncategorized_contacts ds
  | None => None
  end.

(** A ruleset with every [by_name] and [by_phone] entry replaced by its
    normalized form. *)
Definition normalize_tier_data (tier_data : TierData.t) : TierData.t :=
  TierData.mk
    (TierData.description tier_data)
    (option_map (map clean_name_of) (TierData.by_name tier_data))
    (option_map (map (fun phone => sanitize_phone_number (Some phone)))
                (TierData.by_phone tier_data))
    (TierData.by_keywords tier_data)
    (TierData.settings tier_data).

Definition normalize_config (cfg : Config.t) : Config.t :=
  Config.mk
    (option_map (fmap normalize_tier_data) (Config.contact_tiers cfg))
    (Config.default_settings cfg).

Definition with_config (cfg : Config.t) (self : ContactTierManager)
  : ContactTierManager :=
  mkManager cfg (message_templates self) (contact_cache self).

Definition normalized_manager (self : ContactTierManager)
  : ContactTierManager :=
  with_config (normalize_config (contact_tiers self)) self.

(** The digits of a string, in order. *)
Definition digits_of (s : string) : string := keep_chars is_digit s.

(** What follows the first occurrence of [ch] (empty when there is none). *)
Fixpoint after_first (ch : ascii) (s : string) : string :=
  match s with
  | EmptyString => EmptyString
  | String c s' => if Ascii.eqb c ch then s' else after_first ch s'
  end.

Fixpoint all_chars (p : ascii -> bool) (s : string) : bool :=
  match s with
  | EmptyString => true
  | String c s' => p c && all_chars p s'
  end.

(** A string that is empty or starts with a non-space character. *)
Definition no_leading_space (s : string) : Prop :=
  match s with
  | EmptyString => True
  | String c _ => is_space c = false
  end.

(** The shape of a normalized phone: digits, with at most one '+' and
    only in front. *)
Definition phone_shape (r : string) : Prop :=
  exists d, all_chars is_digit d = true /\ (r = d \/ r = "+" +:+ d).

Definition not_plus (c : ascii) : bool := negb (Ascii.eqb c plus_sign).

(** The three tests of [_is_contact_in_tier], one by one. *)
Definition name_hit (self : ContactTierManager) (clean_name : string)
    (tier : ContactTier) : bool :=
  elem clean_name (map clean_name_of (names_of self tier)).

Definition phone_hit (self : ContactTierManager)
    (clean_phone : option string) (tier : ContactTier) : bool :=
  match clean_phone with
  | Some pn =>
      truthy clean_phone
      && elem pn (map (fun phone => sanitize_phone_number (Some phone))
                      (phones_of self tier))
  | None => false
  end.

Definition keyword_hit (self : ContactTierManager) (clean_name : string)
    (tier : ContactTier) : bool :=
  existsb (fun keyword => is_substring (lower keyword) clean_name)
          (keywords_of self tier).

(** A ruleset in which "bob" is listed by name under the two upper tiers
    and his phone under the lowest one. *)
Definition overlapping_config : Config.t :=
  Config.mk
    (Some
       (<["main_contacts" :=
            TierData.mk None (Some ["bob"]) None None
              (Some (SettingsData.mk (Some true) (Some true)
                       (Some "informative_ai") (Some true) (Some "high")))]>
        (<["time_pass_contacts" :=
            TierData.mk None (Some ["bob"; "carol"]) None None None]>
        (<["not_important" :=
            TierData.mk None None (Some ["+15550100"]) (Some ["promo"])
              None]>
         ∅))))
    (Some (DefaultSettings.mk (Some "time_pass_contacts") None None)).

Definition no_templates : Templates.t := Templates.mk None None.

Definition overlapping_manager : ContactTierManager :=
  load_configurations (Some overlapping_config) no_templates.

(** The default templates written by [_load_message_templates] when the
    file does not exist (non-ASCII characters as their UTF-8 bytes). *)
Definition default_templates : Templates.t :=
  Templates.mk
    (Some
       (<["main_contacts" :=
            <["greeting" := "Hi! Thanks for reaching out. I'm currently using an auto-assistant but I'll respond personally soon! 😊"]>
            (<["informative" := "I've received your message and will get back to you shortly with a proper response."]>
            (<["busy" := "I'm currently busy, but I saw your message. Will respond as soon as I'm free! 🚀"]>
             ∅))]>
        (<["time_pass_contacts" :=
            <["default" := "Hey! Thanks for the message. I'll get back to you when I can! 👍"]>
            (<["greeting" := "Hello! Auto-reply here - I'll respond when I'm available!"]>
             ∅)]>
        (<["not_important" := <["none" := EmptyString]> ∅]>
         ∅))))
    (Some
       (<["main_contacts" := "You are responding to a VIP contact. Be personal, informative, and helpful."]>
        (<["time_pass_contacts" := "You are responding to a casual contact. Be friendly but brief."]>
        (<["not_important" := "No response needed."]>
         ∅)))).

(** A template file in which a tier has an empty named template next to a
    non-empty default one. *)
Definition templates_with_empty_entry : Templates.t :=
  Templates.mk
    (Some
       (<["not_important" :=
            <["none" := EmptyString]> (<["default" := "Noted."]> ∅)]>
        ∅))
    None.

(** The template lookup as the specification words it: a named template
    that is present is what the lookup returns. *)
Definition returns_named_template_when_present (self : ContactTierManager)
    (contact_name : string) (phone_number : option string)
    (template_type : string) : Prop :=
  forall contact_info self' text,
    get_contact_info contact_name phone_number self
    = (Ok contact_info, self') ->
    tier_templates_of self (ContactInfo.tier contact_info) !! template_type
    = Some text ->
    fst (get_reply_template contact_name phone_number template_type self)
    = Ok text.

(** The query that follows an addition: [add_contact_to_tier] with a
    successful save, then [get_contact_info] with the same arguments. *)
Definition after_add (contact_name : string) (phone_number : option string)
    (tier : ContactTier) (self : ContactTierManager) : ContactTierManager :=
  snd (add_contact_to_tier true contact_name phone_number tier self).

(** The cache-coherence claim as the specification words it: the query
    after the addition answers with the tier just added to. *)
Definition query_after_add_returns_tier (self : ContactTierManager)
    (contact_name : string) (phone_number : option string)
    (tier : ContactTier) : Prop :=
  exists contact_info self',
    get_contact_info contact_name phone_number
      (after_add contact_name phone_number tier self)
    = (Ok contact_info, self')
    /\ ContactInfo.tier contact_info = tier.

(** What a cache miss stores and returns for a resolved contact. *)
Definition fresh_contact_info (self : ContactTierManager)
    (contact_name : string) (phone_number : option string)
  : result ContactInfo.t :=
  match categorize_contact self contact_name phone_number with
  | Ok (tier, settings) =>
      Ok (ContactInfo.mk contact_name (or_else phone_number EmptyString) tier settings
                         None)
  | Raise e => Raise e
  end.

(** The storing claim as the specification words it: the normalized name
    is what [by_name] holds after the addition. *)
Definition stores_normalized_name (self : ContactTierManager)
    (contact_name : string) (phone_number : option string)
    (tier : ContactTier) : Prop :=
  In (clean_name_of contact_name)
     (names_of (after_add contact_name phone_number tier self) tier).

(** The cache-key claim as the specification words it: two cache entries
    whose contacts normalize to the same identity are one entry. *)
Definition one_entry_per_normalized_identity (self : ContactTierManager)
  : Prop :=
  forall k1 k2 i1 i2,
    contact_cache self !! k1 = Some i1 ->
    contact_cache self !! k2 = Some i2 ->
    clean_name_of (ContactInfo.name i1) = clean_name_of (ContactInfo.name i2) ->
    clean_phone_of (Some (ContactInfo.phone i1))
    = clean_phone_of (Some (ContactInfo.phone i2)) ->
    k1 = k2.

(** Every cache entry sits under the key made of its own name and phone,
    as they were passed. *)
Definition keyed_by_own_identity (self : ContactTierManager) : Prop :=
  forall k contact_info,
    contact_cache self !! k = Some contact_info ->
    k = cache_key (ContactInfo.name contact_info)
                  (Some (ContactInfo.phone contact_info)).

(** The ruleset of the specification's first scenario. *)
Definition scenario_config : Config.t :=
  Config.mk
    (Some
       (<["main_contacts" := TierData.mk None (Some ["alice"]) None None None]>
        (<["time_pass_contacts" := TierData.mk None None None None None]>
        (<["not_important" :=
            TierData.mk None None None (Some ["promo"]) None]>
         ∅))))
    (Some (DefaultSettings.mk (Some "not_important") None None)).


(** ** [src/utils/helpers.py]: further functions *)

(** The first [n] characters (all of them when there are fewer). *)
Fixpoint take_chars (n : nat) (s : string) : string :=
  match n, s with
  | S n', String c s' => String c (take_chars n' s')
  | _, _ => EmptyString
  end.

(** The slice [s[:k]] for an integer [k]: a negative [k] counts from the
    end, and both cases are clamped to the string. *)
Definition slice_to (k : Z) (s : string) : string :=
  let n := Z.of_nat (String.length s) in
  let stop := if (k <? 0)%Z then Z.max (n + k) 0 else Z.min k n in
  take_chars (Z.to_nat stop) s.

Definition truncate_text (text : string) (max_length : Z) (suffix : string)
  : string :=
  if is_empty text || (Z.of_nat (String.length text) <=? max_length)%Z
  then text
  else
    slice_to (max_length - Z.of_nat (String.length suffix)) text +:+ suffix.

(** [s.split(ch)[0]] *)
Definition before_first (ch : ascii) (s : string) : string :=
  hd EmptyString (split ch s).

(** [re.sub(r'\+\d+', '', s)]: every '+' that is followed by a digit is
    removed together with the whole run of digits after it.  [in_match]
    tells that the scan is inside such a run. *)
Fixpoint sub_plus_digits (in_match : bool) (s : string) : string :=
  match s with
  | EmptyString => EmptyString
  | String c s' =>
      if in_match && is_digit c then sub_plus_digits true s'
      else if Ascii.eqb c plus_sign
              && match s' with
                 | String d _ => is_digit d
                 | EmptyString => false
                 end
      then sub_plus_digits true s'
      else String c (sub_plus_digits false s')
  end.

Definition extract_contact_name (full_contact_info : string) : string :=
  if is_empty full_contact_info then "Unknown"
  else
    (* Remove phone in parentheses *)
    let name := strip (before_first "("%char full_contact_info) in
    (* Remove status info *)
    let name := strip (before_first ":"%char name) in
    (* Remove phone numbers *)
    let name := strip (sub_plus_digits false name) in
    if is_empty name then "Unknown" else name.

(** The class [[\x00-\x08\x0B\x0C\x0E-\x1F\x7F]]. *)
Definition is_control (c : ascii) : bool :=
  (code c <=? 8)
  || (code c =? 11) || (code c =? 12)
  || ((14 <=? code c) && (code c <=? 31))
  || (code c =? 127).

(** [re.sub(r'\s+', ' ', s)]: every maximal run of whitespace becomes one
    space.  [in_run] tells that the scan is inside such a run. *)
Fixpoint collapse_whitespace (in_run : bool) (s : string) : string :=
  match s with
  | EmptyString => EmptyString
  | String c s' =>
      if is_space c then
        if in_run then collapse_whitespace true s'
        else String " "%char (collapse_whitespace true s')
      else String c (collapse_whitespace false s')
  end.

(** On ASCII text [unicodedata.normalize('NFKD', text)] returns the text
    unchanged, so that step is the identity here; the properties of this
    function are stated for ASCII text. *)
Definition clean_message_text (text : string) : string :=
  if is_empty text then EmptyString
  else
    let text := collapse_whitespace false text in
    let text := strip text in
    keep_chars (fun c => negb (is_control c)) text.

Definition is_ascii (c : ascii) : bool := code c <? 128.

(** Characters that are neither control characters nor whitespace other
    than the space itself. *)
Definition is_clean_char (c : ascii) : bool :=
  negb (is_control c) && (negb (is_space c) || Ascii.eqb c " "%char).

Definition not_char (ch : ascii) (c : ascii) : bool := negb (Ascii.eqb c ch).

(** [s] has no '+' directly followed by a digit. *)
Fixpoint no_plus_digit (s : string) : bool :=
  match s with
  | EmptyString => true
  | String c s' =>
      negb (Ascii.eqb c plus_sign
            && match s' with
               | String d _ => is_digit d
               | EmptyString => false
               end)
      && no_plus_digit s'
  end.

(** ** Vocabulary of the further properties *)

(** The ruleset dict as [__init__] leaves it, before any file is loaded. *)
Definition empty_config : Config.t := Config.mk None None.

(** [ContactSettings()] with every field at its default. *)
Definition default_contact_settings : ContactSettings.t :=
  ContactSettings.mk false false "none" false "low".

(** A ruleset whose configured fallback is not a tier key. *)
Definition bad_default_config : Config.t :=
  Config.mk None (Some (DefaultSettings.mk (Some "vip") None None)).

(** A ruleset whose stored entries are not in normalized form: a name with
    capitals and surrounding spaces under MAIN, a formatted phone under
    the casual tier. *)
Definition unnormalized_config : Config.t :=
  Config.mk
    (Some
       (<["main_contacts" := TierData.mk None (Some [" Bob "]) None None None]>
        (<["time_pass_contacts" :=
            TierData.mk None None (Some ["+1 (555) 0100"]) None None]>
         ∅)))
    (Some (DefaultSettings.mk (Some "not_important") None None)).
(** ** Facts about the string primitives *)

Section StringFacts.

Lemma lower_char_idem (c : ascii) : lower_char (lower_char c) = lower_char c.
Proof. destruct c as [[] [] [] [] [] [] [] []]; reflexivity. Qed.

Lemma is_space_lower_char (c : ascii) : is_space (lower_char c) = is_space c.
Proof. destruct c as [[] [] [] [] [] [] [] []]; reflexivity. Qed.

Lemma lower_idem (s : string) : lower (lower s) = lower s.
Proof.
  induction s as [|c s IH]; simpl; [reflexivity|].
  now rewrite lower_char_idem, IH.
Qed.

Lemma is_empty_lower (s : string) : is_empty (lower s) = is_empty s.
Proof. now destruct s. Qed.

Lemma lower_lstrip (s : string) : lower (lstrip s) = lstrip (lower s).
Proof.
  induction s as [|c s IH]; simpl; [reflexivity|].
  rewrite is_space_lower_char. now destruct (is_space c).
Qed.

Lemma lower_rstrip (s : string) : lower (rstrip s) = rstrip (lower s).
Proof.
  induction s as [|c s IH]; simpl; [reflexivity|].
  rewrite is_space_lower_char, <- IH, is_empty_lower.
  now destruct (is_space c && is_empty (rstrip s)).
Qed.

Lemma lower_strip (s : string) : lower (strip s) = strip (lower s).
Proof. unfold strip. now rewrite lower_rstrip, lower_lstrip. Qed.

Lemma lstrip_no_leading_space (s : string) : no_leading_space (lstrip s).
Proof.
  induction s as [|c s IH]; simpl; [exact I|].
  destruct (is_space c) eqn:E; [exact IH | exact E].
Qed.

Lemma lstrip_fixed (s : string) : no_leading_space s -> lstrip s = s.
Proof. destruct s as [|c s]; simpl; [reflexivity|]. now intros ->. Qed.

Lemma rstrip_no_leading_space (s : string) :
  no_leading_space s -> no_leading_space (rstrip s).
Proof.
  destruct s as [|c s]; simpl; [exact id|].
  intros H. rewrite H. simpl. exact H.
Qed.

Lemma rstrip_idem (s : string) : rstrip (rstrip s) = rstrip s.
Proof.
  induction s as [|c s IH]; simpl; [reflexivity|].
  destruct (is_space c && is_empty (rstrip s)) eqn:E; simpl; [reflexivity|].
  now rewrite IH, E.
Qed.

Lemma strip_idem (s : string) : strip (strip s) = strip s.
Proof.
  unfold strip.
  rewrite (lstrip_fixed (rstrip (lstrip s))).
  - apply rstrip_idem.
  - apply rstrip_no_leading_space, lstrip_no_leading_space.
Qed.

Lemma clean_name_of_idem (s : string) :
  clean_name_of (clean_name_of s) = clean_name_of s.
Proof.
  unfold clean_name_of.
  now rewrite lower_strip, lower_idem, strip_idem.
Qed.

Lemma elem_In (x : string) (l : list string) : elem x l = true <-> In x l.
Proof.
  unfold elem. rewrite existsb_exists. split.
  - intros (y & Hy & E). apply String.eqb_eq in E. now subst.
  - intros H. exists x. split; [exact H | apply String.eqb_refl].
Qed.

Lemma elem_false (x : string) (l : list string) :
  elem x l = false <-> ~ In x l.
Proof.
  rewrite <- elem_In. destruct (elem x l); split; congruence.
Qed.

Lemma prefix_spec (a b : string) :
  String.prefix a b = true <-> exists post, b = a +:+ post.
Proof.
  revert b. induction a as [|c a IH]; intros b; simpl.
  - split; [intros _; now exists b | now destruct b].
  - destruct b as [|d b]; [split; [discriminate | intros [? ?]; discriminate]|].
    simpl. destruct (ascii_dec c d) as [->|Hne].
    + rewrite IH. split; intros [post E]; exists post.
      * now rewrite E.
      * now injection E.
    + split; [discriminate|]. intros [post E]. injection E. congruence.
Qed.

Lemma is_substring_spec (needle hay : string) :
  is_substring needle hay = true <-> substring_of needle hay.
Proof.
  unfold substring_of. induction hay as [|c hay IH].
  - cbn [is_substring]. rewrite orb_false_r, prefix_spec. split.
    + intros [post E]. now exists EmptyString, post.
    + intros (pre & post & E). destruct pre; [now exists post|discriminate].
  - cbn [is_substring]. rewrite orb_true_iff, prefix_spec, IH. split.
    + intros [[post E] | (pre & post & E)].
      * now exists EmptyString, post.
      * exists (String c pre), post. simpl. now rewrite E.
    + intros (pre & post & E). destruct pre as [|d pre].
      * left. now exists post.
      * right. simpl in E. injection E as _ E. now exists pre, post.
Qed.

End StringFacts.

(** ** Facts about [sanitize_phone_number] *)

Section SanitizeFacts.

Lemma keep_chars_fixed (p : ascii -> bool) (s : string) :
  all_chars p s = true -> keep_chars p s = s.
Proof.
  induction s as [|c s IH]; simpl; [reflexivity|].
  intros [Hc Hs]%andb_true_iff. now rewrite Hc, IH.
Qed.

Lemma all_chars_keep (p : ascii -> bool) (s : string) :
  all_chars p (keep_chars p s) = true.
Proof.
  induction s as [|c s IH]; simpl; [reflexivity|].
  destruct (p c) eqn:E; simpl; [now rewrite E|exact IH].
Qed.

Lemma all_chars_weaken (p q : ascii -> bool) (s : string) :
  (forall c, p c = true -> q c = true) ->
  all_chars p s = true -> all_chars q s = true.
Proof.
  intros Hpq. induction s as [|c s IH]; simpl; [reflexivity|].
  intros [Hc Hs]%andb_true_iff. now rewrite (Hpq _ Hc), IH.
Qed.

Lemma all_chars_keep_other (p q : ascii -> bool) (s : string) :
  all_chars p s = true -> all_chars p (keep_chars q s) = true.
Proof.
  induction s as [|c s IH]; simpl; [reflexivity|].
  intros [Hc Hs]%andb_true_iff.
  destruct (q c); simpl; [now rewrite Hc, IH|now apply IH].
Qed.

Lemma all_chars_after_first (p : ascii -> bool) (ch : ascii) (s : string) :
  all_chars p s = true -> all_chars p (after_first ch s) = true.
Proof.
  induction s as [|c s IH]; simpl; [reflexivity|].
  intros [Hc Hs]%andb_true_iff. destruct (Ascii.eqb c ch); auto.
Qed.

Lemma digit_not_plus (c : ascii) : is_digit c = true -> not_plus c = true.
Proof. destruct c as [[] [] [] [] [] [] [] []]; vm_compute; congruence. Qed.

Lemma digit_is_digit_or_plus (c : ascii) :
  is_digit c = true -> digit_or_plus c = true.
Proof. unfold digit_or_plus. now intros ->. Qed.

Lemma digit_or_plus_not_plus (c : ascii) :
  digit_or_plus c = true -> not_plus c = true -> is_digit c = true.
Proof.
  unfold digit_or_plus, not_plus.
  destruct (is_digit c), (Ascii.eqb c plus_sign); simpl; congruence.
Qed.

Lemma contains_char_false (ch : ascii) (s : string) :
  all_chars (fun c => negb (Ascii.eqb c ch)) s = true ->
  contains_char ch s = false.
Proof.
  induction s as [|c s IH]; simpl; [reflexivity|].
  intros [Hc Hs]%andb_true_iff.
  destruct (Ascii.eqb c ch); [discriminate|]. now apply IH.
Qed.

Lemma not_contains_all (ch : ascii) (s : string) :
  contains_char ch s = false ->
  all_chars (fun c => negb (Ascii.eqb c ch)) s = true.
Proof.
  induction s as [|c s IH]; simpl; [reflexivity|].
  destruct (Ascii.eqb c ch); simpl; [discriminate|exact IH].
Qed.

Lemma split_not_nil (sep : ascii) (s : string) : split sep s <> [].
Proof.
  destruct s as [|c s]; simpl; [discriminate|].
  destruct (Ascii.eqb c sep); [discriminate|].
  destruct (split sep s); discriminate.
Qed.

Lemma join_split (sep : ascii) (s : string) :
  join (split sep s) = keep_chars (fun c => negb (Ascii.eqb c sep)) s.
Proof.
  induction s as [|c s IH]; simpl; [reflexivity|].
  destruct (Ascii.eqb c sep) eqn:E; simpl; [exact IH|].
  destruct (split sep s) as [|h t] eqn:Hs; [now apply split_not_nil in Hs|].
  rewrite <- IH. reflexivity.
Qed.

(** The parts after the first are what follows the first separator, cut
    at the later separators. *)
Lemma join_tl_split (sep : ascii) (s : string) :
  join (tl (split sep s))
  = keep_chars (fun c => negb (Ascii.eqb c sep)) (after_first sep s).
Proof.
  induction s as [|c s IH]; simpl; [reflexivity|].
  destruct (Ascii.eqb c sep) eqn:E; simpl; [apply join_split|].
  destruct (split sep s) as [|h t] eqn:Hs; [now apply split_not_nil in Hs|].
  exact IH.
Qed.

Lemma sanitize_None : sanitize_phone_number None = EmptyString.
Proof. reflexivity. Qed.

Lemma sanitize_empty : sanitize_phone_number (Some EmptyString) = EmptyString.
Proof. reflexivity. Qed.

(** The result on a non-empty string, without [split] and [join]. *)
Lemma sanitize_unfold (phone : string) :
  is_empty phone = false ->
  sanitize_phone_number (Some phone)
  = let cleaned := keep_chars digit_or_plus phone in
    if contains_char plus_sign cleaned
    then "+" +:+ keep_chars not_plus (after_first plus_sign cleaned)
    else cleaned.
Proof.
  intros H. unfold sanitize_phone_number. rewrite H. cbv zeta.
  now rewrite join_tl_split.
Qed.

(** At most one '+', and only at position 0. *)
Lemma sanitize_shape (phone : option string) :
  phone_shape (sanitize_phone_number phone).
Proof.
  destruct phone as [phone|]; [|exists EmptyString; now split; [|left]].
  destruct (is_empty phone) eqn:E.
  - destruct phone; [|discriminate]. exists EmptyString. now split; [|left].
  - rewrite (sanitize_unfold _ E). cbv zeta.
    destruct (contains_char plus_sign (keep_chars digit_or_plus phone)) eqn:C.
    + eexists. split; [|right; reflexivity].
      apply (all_chars_weaken (fun c => digit_or_plus c && not_plus c)).
      * intros c [H1 H2]%andb_true_iff. now apply digit_or_plus_not_plus.
      * set (t := after_first plus_sign (keep_chars digit_or_plus phone)).
        assert (Ht : all_chars digit_or_plus t = true)
          by apply all_chars_after_first, all_chars_keep.
        clearbody t. induction t as [|c t IH]; simpl; [reflexivity|].
        simpl in Ht. apply andb_true_iff in Ht as [Hc Ht].
        destruct (not_plus c) eqn:N; simpl; [|now apply IH].
        now rewrite Hc, N, IH.
    + eexists. split; [|left; reflexivity].
      apply not_contains_all in C. fold not_plus in C.
      assert (D : all_chars digit_or_plus (keep_chars digit_or_plus phone)
                  = true) by apply all_chars_keep.
      revert C D. generalize (keep_chars digit_or_plus phone) as t.
      induction t as [|c t IH]; simpl; [reflexivity|].
      intros [N C]%andb_true_iff [Hc D]%andb_true_iff.
      now rewrite (digit_or_plus_not_plus _ Hc N), IH.
Qed.

(** A string of the normalized shape is left as it is. *)
Lemma sanitize_fixed (r : string) :
  phone_shape r -> sanitize_phone_number (Some r) = r.
Proof.
  intros (d & Hd & [-> | ->]).
  - destruct (is_empty d) eqn:E; [now destruct d|].
    rewrite (sanitize_unfold _ E). cbv zeta.
    rewrite (keep_chars_fixed digit_or_plus d)
      by (eapply all_chars_weaken; [apply digit_is_digit_or_plus|exact Hd]).
    rewrite contains_char_false; [reflexivity|].
    eapply all_chars_weaken; [apply digit_not_plus|exact Hd].
  - rewrite sanitize_unfold by reflexivity. cbv zeta.
    assert (K : keep_chars digit_or_plus ("+" +:+ d) = "+" +:+ d).
    { simpl. f_equal. apply keep_chars_fixed.
      eapply all_chars_weaken; [apply digit_is_digit_or_plus|exact Hd]. }
    rewrite K. simpl. f_equal. apply keep_chars_fixed.
    eapply all_chars_weaken; [apply digit_not_plus|exact Hd].
Qed.

Lemma sanitize_idem (phone : option string) :
  sanitize_phone_number (Some (sanitize_phone_number phone))
  = sanitize_phone_number phone.
Proof. apply sanitize_fixed, sanitize_shape. Qed.

End SanitizeFacts.

(** ** Facts about tier matching *)

Section ResolverFacts.

Context (self : ContactTierManager).

Lemma is_contact_in_tier_hits (clean_name : string)
    (clean_phone : option string) (tier : ContactTier) :
  _is_contact_in_tier self clean_name clean_phone tier
  = name_hit self clean_name tier
    || phone_hit self clean_phone tier
    || keyword_hit self clean_name tier.
Proof.
  unfold _is_contact_in_tier, name_hit, phone_hit, keyword_hit, names_of,
    phones_of, keywords_of.
  destruct (elem clean_name _); [reflexivity|].
  destruct clean_phone as [pn|]; [|reflexivity].
  destruct (truthy (Some pn)); [|reflexivity].
  simpl. now destruct (elem pn _).
Qed.

Lemma name_hit_spec (contact_name : string) (tier : ContactTier) :
  name_hit self (clean_name_of contact_name) tier = true
  <-> matches_by_name self contact_name tier.
Proof.
  unfold name_hit, matches_by_name.
  rewrite elem_In, in_map_iff. split; intros (n & H1 & H2); exists n; tauto.
Qed.

Lemma phone_hit_spec (phone_number : option string) (tier : ContactTier) :
  phone_hit self (clean_phone_of phone_number) tier = true
  <-> matches_by_phone self phone_number tier.
Proof.
  unfold phone_hit, matches_by_phone, clean_phone_of.
  destruct (truthy phone_number) eqn:T.
  - rewrite andb_true_iff, elem_In, in_map_iff. unfold truthy.
    split.
    + intros [Hne (p & Hp & Hin)]. exists p. repeat split; try assumption.
      intros E. rewrite E in Hne. discriminate.
    + intros (p & Hin & _ & Hne & Hp). split; [|now exists p].
      destruct (sanitize_phone_number phone_number); [congruence|reflexivity].
  - split; [discriminate|]. intros (p & _ & H & _). discriminate.
Qed.

Lemma keyword_hit_spec (contact_name : string) (tier : ContactTier) :
  keyword_hit self (clean_name_of contact_name) tier = true
  <-> matches_by_keyword self contact_name tier.
Proof.
  unfold keyword_hit, matches_by_keyword. rewrite existsb_exists.
  split; intros (kw & H1 & H2); exists kw; split; try assumption;
    now apply is_substring_spec.
Qed.

(** [_is_contact_in_tier], on the cleaned identity, decides [tier_matches]. *)
Lemma is_contact_in_tier_spec (contact_name : string)
    (phone_number : option string) (tier : ContactTier) :
  _is_contact_in_tier self (clean_name_of contact_name)
    (clean_phone_of phone_number) tier = true
  <-> tier_matches self contact_name phone_number tier.
Proof.
  rewrite is_contact_in_tier_hits, !orb_true_iff, name_hit_spec,
    phone_hit_spec, keyword_hit_spec.
  unfold tier_matches. tauto.
Qed.

Lemma is_contact_in_tier_false (contact_name : string)
    (phone_number : option string) (tier : ContactTier) :
  _is_contact_in_tier self (clean_name_of contact_name)
    (clean_phone_of phone_number) tier = false
  <-> ~ tier_matches self contact_name phone_number tier.
Proof.
  rewrite <- is_contact_in_tier_spec.
  destruct (_is_contact_in_tier _ _ _ _); split; congruence.
Qed.

(** The scan returns the first tier of [tier_priority] that matches. *)
Lemma first_matching_tier_Some (clean_name : string)
    (clean_phone : option string) (tier : ContactTier) :
  _is_contact_in_tier self clean_name clean_phone tier = true ->
  (forall t', precedes t' tier ->
              _is_contact_in_tier self clean_name clean_phone t' = false) ->
  first_matching_tier self clean_name clean_phone tier_priority = Some tier.
Proof.
  intros Hin Hbefore. unfold tier_priority. simpl.
  destruct tier.
  - now rewrite Hin.
  - rewrite (Hbefore MAIN_CONTACTS) by (unfold precedes; simpl; lia).
    now rewrite Hin.
  - rewrite (Hbefore MAIN_CONTACTS) by (unfold precedes; simpl; lia).
    rewrite (Hbefore TIME_PASS) by (unfold precedes; simpl; lia).
    now rewrite Hin.
Qed.

Lemma first_matching_tier_None (clean_name : string)
    (clean_phone : option string) :
  (forall t, _is_contact_in_tier self clean_name clean_phone t = false) ->
  first_matching_tier self clean_name clean_phone tier_priority = None.
Proof. intros H. unfold tier_priority. simpl. now rewrite !H. Qed.

Lemma tier_priority_rank (t : ContactTier) :
  tier_priority !! rank t = Some t.
Proof. now destruct t. Qed.

Lemma ContactTier_of_value_value (t : ContactTier) :
  ContactTier_of_value (value t) = Ok t.
Proof. now destruct t. Qed.

End ResolverFacts.

(** ** Precedence and default of [categorize_contact] *)

(** C1. A contact whose normalized name is listed under the MAIN tier's
    [by_name] resolves to MAIN with MAIN's settings, whatever the other
    tiers list; and in general the tiers are scanned in the order MAIN,
    CASUAL, NOT_IMPORTANT and the first one that matches by name, phone or
    keyword is returned with its settings. *)
Theorem main_by_name_wins_first_match
    (self : ContactTierManager) (contact_name : string)
    (phone_number : option string) :
  (In (clean_name_of contact_name) (names_of self MAIN_CONTACTS) ->
   categorize_contact self contact_name phone_number
   = Ok (MAIN_CONTACTS, _get_tier_settings self MAIN_CONTACTS))
  /\ (forall tier,
        tier_matches self contact_name phone_number tier ->
        (forall t', precedes t' tier ->
                    ~ tier_matches self contact_name phone_number t') ->
        categorize_contact self contact_name phone_number
        = Ok (tier, _get_tier_settings self tier)).
Proof.
  assert (G : forall tier,
             tier_matches self contact_name phone_number tier ->
             (forall t', precedes t' tier ->
                         ~ tier_matches self contact_name phone_number t') ->
             categorize_contact self contact_name phone_number
             = Ok (tier, _get_tier_settings self tier)).
  { intros tier Hm Hbefore. unfold categorize_contact.
    rewrite (first_matching_tier_Some self _ _ tier); [reflexivity| |].
    - now apply is_contact_in_tier_spec.
    - intros t' Ht'. now apply is_contact_in_tier_false, Hbefore. }
  split; [|exact G].
  intros Hin. apply G.
  - left. exists (clean_name_of contact_name). split; [exact Hin|].
    apply clean_name_of_idem.
  - intros t' Ht'. unfold precedes in Ht'. simpl in Ht'. lia.
Qed.

Lemma main_by_name_wins_first_match_witness :
  categorize_contact overlapping_manager " Bob " (Some "+1 555-0100")
  = Ok (MAIN_CONTACTS, _get_tier_settings overlapping_manager MAIN_CONTACTS)
  /\ categorize_contact overlapping_manager "Carol" None
     = Ok (TIME_PASS, _get_tier_settings overlapping_manager TIME_PASS).
Proof.
  split.
  - apply (proj1 (main_by_name_wins_first_match
                    overlapping_manager " Bob " (Some "+1 555-0100"))).
    vm_compute. left. reflexivity.
  - apply (proj2 (main_by_name_wins_first_match
                    overlapping_manager "Carol" None)).
    + apply is_contact_in_tier_spec. vm_compute. reflexivity.
    + intros t' Ht'. apply is_contact_in_tier_false.
      destruct t'; unfold precedes in Ht'; simpl in Ht';
        try lia; vm_compute; reflexivity.
Defined.



(** When nothing is configured the fallback tier is NOT_IMPORTANT. *)
Lemma unmatched_unconfigured_default
    (self : ContactTierManager) (contact_name : string)
    (phone_number : option string) :
  (forall tier, ~ tier_matches self contact_name phone_number tier) ->
  configured_default self = None ->
  categorize_contact self contact_name phone_number
  = Ok (NOT_IMPORTANT, _get_tier_settings self NOT_IMPORTANT).
Proof.
  intros Hnone Hcfg. unfold categorize_contact.
  rewrite first_matching_tier_None
    by (intros t; apply is_contact_in_tier_false, Hnone).
  assert (E : default_tier_name self = "not_important").
  { unfold default_tier_name. unfold configured_default in Hcfg.
    destruct (Config.default_settings (contact_tiers self)) as [ds|];
      [simpl; now rewrite Hcfg | reflexivity]. }
  now rewrite E.
Qed.

(** A configured value that is no tier key makes the fallback raise. *)
Lemma unmatched_bad_default_raises
    (self : ContactTierManager) (contact_name : string)
    (phone_number : option string) (v : string) :
  (forall tier, ~ tier_matches self contact_name phone_number tier) ->
  configured_default self = Some v ->
  (forall t, v <> value t) ->
  categorize_contact self contact_name phone_number = Raise (ValueError v).
Proof.
  intros Hnone Hcfg Hbad. unfold categorize_contact.
  rewrite first_matching_tier_None
    by (intros t; apply is_contact_in_tier_false, Hnone).
  assert (E : default_tier_name self = v).
  { unfold default_tier_name. unfold configured_default in Hcfg.
    destruct (Config.default_settings (contact_tiers self)) as [ds|];
      [simpl; now rewrite Hcfg | discriminate]. }
  rewrite E. unfold ContactTier_of_value.
  destruct (String.eqb_spec v (value MAIN_CONTACTS)) as [->|_];
    [now destruct (Hbad MAIN_CONTACTS)|].
  destruct (String.eqb_spec v (value TIME_PASS)) as [->|_];
    [now destruct (Hbad TIME_PASS)|].
  destruct (String.eqb_spec v (value NOT_IMPORTANT)) as [->|_];
    [now destruct (Hbad NOT_IMPORTANT)|].
  reflexivity.
Qed.

(** ** Match-time normalization of the stored entries *)

Section Normalization.

Context (self : ContactTierManager).

Lemma tier_data_of_normalized (tier : ContactTier) :
  tier_data_of (normalized_manager self) tier
  = normalize_tier_data (tier_data_of self tier).
Proof.
  unfold tier_data_of, normalized_manager, with_config, normalize_config.
  simpl.
  destruct (Config.contact_tiers (contact_tiers self)) as [tiers|]; simpl.
  - rewrite lookup_fmap. now destruct (tiers !! value tier).
  - now rewrite lookup_empty.
Qed.

Lemma map_clean_name_idem (l : list string) :
  map clean_name_of (map clean_name_of l) = map clean_name_of l.
Proof.
  rewrite map_map. apply map_ext. intros a. apply clean_name_of_idem.
Qed.

Lemma map_sanitize_idem (l : list string) :
  map (fun phone => sanitize_phone_number (Some phone))
      (map (fun phone => sanitize_phone_number (Some phone)) l)
  = map (fun phone => sanitize_phone_number (Some phone)) l.
Proof.
  rewrite map_map. apply map_ext. intros a. apply sanitize_idem.
Qed.

Lemma is_contact_in_tier_normalized (clean_name : string)
    (clean_phone : option string) (tier : ContactTier) :
  _is_contact_in_tier (normalized_manager self) clean_name clean_phone tier
  = _is_contact_in_tier self clean_name clean_phone tier.
Proof.
  unfold _is_contact_in_tier. rewrite tier_data_of_normalized.
  destruct (tier_data_of self tier) as [d names phones kws st].
  cbn [normalize_tier_data TierData.by_name TierData.by_phone
       TierData.by_keywords].
  assert (N : map clean_name_of
                (default [] (option_map (map clean_name_of) names))
              = map clean_name_of (default [] names))
    by (destruct names; simpl; [apply map_clean_name_idem|reflexivity]).
  assert (P : map (fun phone => sanitize_phone_number (Some phone))
                (default []
                   (option_map
                      (map (fun phone => sanitize_phone_number (Some phone)))
                      phones))
              = map (fun phone => sanitize_phone_number (Some phone))
                  (default [] phones))
    by (destruct phones; simpl; [apply map_sanitize_idem|reflexivity]).
  now rewrite N, P.
Qed.

Lemma get_tier_settings_normalized (tier : ContactTier) :
  _get_tier_settings (normalized_manager self) tier
  = _get_tier_settings self tier.
Proof.
  unfold _get_tier_settings. rewrite tier_data_of_normalized.
  now destruct (tier_data_of self tier).
Qed.

Lemma first_matching_tier_normalized (clean_name : string)
    (clean_phone : option string) (tiers : list ContactTier) :
  first_matching_tier (normalized_manager self) clean_name clean_phone tiers
  = first_matching_tier self clean_name clean_phone tiers.
Proof.
  induction tiers as [|t tiers IH]; simpl; [reflexivity|].
  now rewrite is_contact_in_tier_normalized, IH.
Qed.

(** Resolution on a ruleset gives the same tier and settings as
    resolution on the ruleset whose entries have been replaced by their
    normalized forms. *)
Lemma categorize_contact_normalized_entries
    (contact_name : string) (phone_number : option string) :
  categorize_contact
    (with_config (normalize_config (contact_tiers self)) self)
    contact_name phone_number
  = categorize_contact self contact_name phone_number.
Proof.
  change (with_config (normalize_config (contact_tiers self)) self)
    with (normalized_manager self).
  unfold categorize_contact.
  rewrite first_matching_tier_normalized.
  destruct (first_matching_tier self _ _ tier_priority) as [tier|].
  - now rewrite get_tier_settings_normalized.
  - change (default_tier_name (normalized_manager self))
      with (default_tier_name self).
    destruct (ContactTier_of_value (default_tier_name self)) as [d|e];
      [|reflexivity].
    now rewrite get_tier_settings_normalized.
Qed.

End Normalization.

(** C10. Tier matching normalizes the stored entries when it compares
    them: a tier matches exactly when some stored [by_name] entry,
    lower-cased and trimmed, equals the normalized name, or some stored
    [by_phone] entry, passed through phone normalization, equals the
    non-empty normalized phone, or a keyword occurs in the normalized
    name.  Hence a stored entry that differs from the query only in case,
    surrounding whitespace or phone formatting makes the contact resolve
    to its tier (when no tier of higher precedence matches), and
    resolution returns the same tier and settings as on the ruleset whose
    entries have been replaced by their normalized forms. *)
Theorem stored_entries_normalized_at_match_time
    (self : ContactTierManager) (contact_name : string)
    (phone_number : option string) :
  (forall tier,
     _is_contact_in_tier self (strip (lower contact_name))
       (clean_phone_of phone_number) tier = true
     <-> (exists stored,
            In stored (names_of self tier)
            /\ strip (lower stored) = strip (lower contact_name))
         \/ (exists stored,
               In stored (phones_of self tier)
               /\ truthy phone_number = true
               /\ sanitize_phone_number phone_number <> EmptyString
               /\ sanitize_phone_number (Some stored)
                  = sanitize_phone_number phone_number)
         \/ (exists keyword,
               In keyword (keywords_of self tier)
               /\ substring_of (lower keyword) (strip (lower contact_name))))
  /\ (forall tier stored,
        In stored (names_of self tier) ->
        strip (lower stored) = strip (lower contact_name) ->
        (forall t', precedes t' tier ->
                    ~ tier_matches self contact_name phone_number t') ->
        categorize_contact self contact_name phone_number
        = Ok (tier, _get_tier_settings self tier))
  /\ (forall tier stored,
        In stored (phones_of self tier) ->
        truthy phone_number = true ->
        sanitize_phone_number phone_number <> EmptyString ->
        sanitize_phone_number (Some stored)
        = sanitize_phone_number phone_number ->
        (forall t', precedes t' tier ->
                    ~ tier_matches self contact_name phone_number t') ->
        categorize_contact self contact_name phone_number
        = Ok (tier, _get_tier_settings self tier))
  /\ categorize_contact
       (with_config (normalize_config (contact_tiers self)) self)
       contact_name phone_number
     = categorize_contact self contact_name phone_number.
Proof.
  assert (G : forall tier,
             tier_matches self contact_name phone_number tier ->
             (forall t', precedes t' tier ->
                         ~ tier_matches self contact_name phone_number t') ->
             categorize_contact self contact_name phone_number
             = Ok (tier, _get_tier_settings self tier)).
  { intros tier Hm Hbefore. unfold categorize_contact.
    rewrite (first_matching_tier_Some self _ _ tier); [reflexivity| |].
    - now apply is_contact_in_tier_spec.
    - intros t' Ht'. now apply is_contact_in_tier_false, Hbefore. }
  split; [|split; [|split]].
  - intros tier. apply (is_contact_in_tier_spec self contact_name).
  - intros tier stored Hin E Hbefore. apply G; [|exact Hbefore].
    left. now exists stored.
  - intros tier stored Hin T Hne E Hbefore. apply G; [|exact Hbefore].
    right. left. now exists stored.
  - apply categorize_contact_normalized_entries.
Qed.

Lemma stored_entries_normalized_at_match_time_witness :
  let self := load_configurations (Some unnormalized_config) no_templates in
  categorize_contact self "bob" None
  = Ok (MAIN_CONTACTS, _get_tier_settings self MAIN_CONTACTS)
  /\ categorize_contact self "Zed" (Some "+1 555 0100")
     = Ok (TIME_PASS, _get_tier_settings self TIME_PASS).
Proof.
  cbv zeta.
  destruct (stored_entries_normalized_at_match_time
              (load_configurations (Some unnormalized_config) no_templates)
              "bob" None) as (_ & Hname & _ & _).
  destruct (stored_entries_normalized_at_match_time
              (load_configurations (Some unnormalized_config) no_templates)
              "Zed" (Some "+1 555 0100")) as (_ & _ & Hphone & _).
  split.
  - apply (Hname MAIN_CONTACTS " Bob ").
    + vm_compute. left. reflexivity.
    + reflexivity.
    + intros t' Ht'. unfold precedes in Ht'. simpl in Ht'. lia.
  - apply (Hphone TIME_PASS "+1 (555) 0100").
    + vm_compute. left. reflexivity.
    + reflexivity.
    + discriminate.
    + reflexivity.
    + intros t' Ht'. apply is_contact_in_tier_false.
      destruct t'; unfold precedes in Ht'; simpl in Ht'; try lia.
      vm_compute. reflexivity.
Defined.

(** ** Digits kept and dropped by [sanitize_phone_number] *)

Lemma after_first_keep_chars (phone : string) :
  after_first plus_sign (keep_chars digit_or_plus phone)
  = keep_chars digit_or_plus (after_first plus_sign phone).
Proof.
  induction phone as [|c s IH]; simpl; [reflexivity|].
  destruct (Ascii.eqb c plus_sign) eqn:E.
  - apply Ascii.eqb_eq in E. subst c. reflexivity.
  - unfold digit_or_plus at 1. rewrite E, orb_false_r.
    destruct (is_digit c); simpl; [now rewrite E|exact IH].
Qed.

Lemma contains_char_keep_chars (phone : string) :
  contains_char plus_sign (keep_chars digit_or_plus phone)
  = contains_char plus_sign phone.
Proof.
  induction phone as [|c s IH]; simpl; [reflexivity|].
  destruct (Ascii.eqb c plus_sign) eqn:E.
  - apply Ascii.eqb_eq in E. subst c. reflexivity.
  - unfold digit_or_plus at 1. rewrite E, orb_false_r.
    destruct (is_digit c); simpl; [now rewrite E|exact IH].
Qed.

Lemma digits_of_keep_digit_or_plus (s : string) :
  digits_of (keep_chars digit_or_plus s) = digits_of s.
Proof.
  unfold digits_of. induction s as [|c s IH]; simpl; [reflexivity|].
  unfold digit_or_plus at 1.
  destruct (is_digit c) eqn:D; simpl; [now rewrite D, IH|].
  destruct (Ascii.eqb c plus_sign) eqn:E; simpl; [|exact IH].
  now rewrite D.
Qed.

Lemma digits_of_keep_not_plus (s : string) :
  digits_of (keep_chars not_plus s) = digits_of s.
Proof.
  unfold digits_of. induction s as [|c s IH]; simpl; [reflexivity|].
  destruct (is_digit c) eqn:D.
  - rewrite (digit_not_plus _ D). simpl. now rewrite D, IH.
  - destruct (not_plus c); simpl; [now rewrite D|exact IH].
Qed.

(** Which digits survive: all of them when the input has no '+', and
    otherwise only those after its first '+'. *)
Lemma sanitize_digits (phone : string) :
  digits_of (sanitize_phone_number (Some phone))
  = if contains_char plus_sign phone
    then digits_of (after_first plus_sign phone)
    else digits_of phone.
Proof.
  destruct (is_empty phone) eqn:E; [now destruct phone|].
  rewrite (sanitize_unfold _ E). cbv zeta.
  rewrite contains_char_keep_chars, after_first_keep_chars.
  destruct (contains_char plus_sign phone).
  - change (digits_of ("+" +:+ ?s)) with (digits_of s).
    now rewrite digits_of_keep_not_plus, digits_of_keep_digit_or_plus.
  - apply digits_of_keep_digit_or_plus.
Qed.

(** With no digit in front of the first '+', every digit is kept. *)
Lemma sanitize_keeps_digits_after_leading_plus (junk rest : string) :
  digits_of junk = EmptyString -> contains_char plus_sign junk = false ->
  digits_of (sanitize_phone_number (Some (junk +:+ "+" +:+ rest)))
  = digits_of (junk +:+ "+" +:+ rest).
Proof.
  intros Hd Hp. rewrite sanitize_digits.
  assert (C : contains_char plus_sign (junk +:+ "+" +:+ rest) = true).
  { clear. induction junk as [|c s IH]; simpl; [reflexivity|].
    now rewrite IH, orb_true_r. }
  rewrite C. clear C.
  induction junk as [|c s IH]; simpl; [reflexivity|].
  simpl in Hp. apply orb_false_iff in Hp as [E Hp]. rewrite E.
  unfold digits_of in *. simpl in *.
  destruct (is_digit c); [discriminate|]. now apply IH.
Qed.

(** C4, at the input "1+2": the digit in front of the '+' is dropped, so
    the digits of the input are not all preserved. *)
Theorem sanitize_drops_digits_before_plus :
  sanitize_phone_number (Some "1+2") = "+2"
  /\ digits_of "1+2" = "12"
  /\ digits_of (sanitize_phone_number (Some "1+2")) = "2".
Proof. repeat split. Qed.

(** ** [get_tier_statistics] *)

(** The dict built by the loop has, for each configured tier key, the
    lengths of the two lists and their sum. *)
Lemma stats_of_lookup (self : ContactTierManager) (tier_name : string) :
  stats_of self !! tier_name
  = (fun tier_data =>
       TierStats.mk
         (length (default [] (TierData.by_name tier_data)))
         (length (default [] (TierData.by_phone tier_data)))
         (length (default [] (TierData.by_name tier_data))
          + length (default [] (TierData.by_phone tier_data))))
    <$> (default ∅ (Config.contact_tiers (contact_tiers self)) !! tier_name).
Proof. unfold stats_of. now rewrite lookup_fmap. Qed.

(** C8. For every ruleset the call raises [NameError]: the expression
    statement [s] placed before [return stats] names nothing, so the
    mapping that was built is never returned. *)
Theorem get_tier_statistics_raises (self : ContactTierManager) :
  get_tier_statistics self = Raise (NameError "s").
Proof. reflexivity. Qed.

(** ** State-passing equations of the cache and the mutations *)

Lemma cache_key_or_else (contact_name : string)
    (phone_number : option string) :
  cache_key contact_name (Some (or_else phone_number EmptyString))
  = cache_key contact_name phone_number.
Proof.
  unfold cache_key. f_equal. f_equal.
  destruct phone_number as [[|c s]|]; reflexivity.
Qed.

Lemma get_contact_info_hit (self : ContactTierManager)
    (contact_name : string) (phone_number : option string)
    (contact_info : ContactInfo.t) :
  contact_cache self !! cache_key contact_name phone_number
  = Some contact_info ->
  get_contact_info contact_name phone_number self = (Ok contact_info, self).
Proof.
  intros H. unfold get_contact_info, bind, get_self. now rewrite H.
Qed.

Lemma get_contact_info_miss (self : ContactTierManager)
    (contact_name : string) (phone_number : option string) :
  contact_cache self !! cache_key contact_name phone_number = None ->
  get_contact_info contact_name phone_number self
  = match categorize_contact self contact_name phone_number with
    | Ok (tier, settings) =>
        let contact_info :=
          ContactInfo.mk contact_name (or_else phone_number EmptyString) tier
                         settings None in
        (Ok contact_info,
         mkManager (contact_tiers self) (message_templates self)
           (<[cache_key contact_name phone_number := contact_info]>
              (contact_cache self)))
    | Raise e => (Raise e, self)
    end.
Proof.
  intros H. unfold get_contact_info, bind, get_self, lift. rewrite H.
  destruct (categorize_contact self contact_name phone_number) as [[t s]|e];
    reflexivity.
Qed.

Lemma get_contact_info_config (self : ContactTierManager)
    (contact_name : string) (phone_number : option string) :
  contact_tiers (snd (get_contact_info contact_name phone_number self))
  = contact_tiers self
  /\ message_templates (snd (get_contact_info contact_name phone_number self))
     = message_templates self.
Proof.
  destruct (contact_cache self !! cache_key contact_name phone_number)
    as [ci|] eqn:H.
  - now rewrite (get_contact_info_hit _ _ _ _ H).
  - rewrite (get_contact_info_miss _ _ _ H).
    now destruct (categorize_contact self contact_name phone_number)
      as [[t s]|e].
Qed.

Lemma add_contact_to_tier_saved (self : ContactTierManager)
    (contact_name : string) (phone_number : option string)
    (tier : ContactTier) :
  add_contact_to_tier true contact_name phone_number tier self
  = (Ok true,
     mkManager
       (add_to_config contact_name phone_number tier (contact_tiers self))
       (message_templates self)
       (delete (cache_key contact_name phone_number) (contact_cache self))).
Proof. reflexivity. Qed.

Lemma add_contact_to_tier_unsaved (self : ContactTierManager)
    (contact_name : string) (phone_number : option string)
    (tier : ContactTier) :
  add_contact_to_tier false contact_name phone_number tier self
  = (Raise (ConfigurationError OSError),
     mkManager
       (add_to_config contact_name phone_number tier (contact_tiers self))
       (message_templates self)
       (contact_cache self)).
Proof. reflexivity. Qed.

Lemma remove_contact_from_tier_saved (self : ContactTierManager)
    (contact_name : string) (phone_number : option string)
    (tier : ContactTier) :
  remove_contact_from_tier true contact_name phone_number tier self
  = (Ok true,
     mkManager
       (remove_from_config contact_name phone_number tier
          (contact_tiers self))
       (message_templates self)
       (delete (cache_key contact_name phone_number) (contact_cache self))).
Proof. reflexivity. Qed.

Lemma remove_contact_from_tier_unsaved (self : ContactTierManager)
    (contact_name : string) (phone_number : option string)
    (tier : ContactTier) :
  remove_contact_from_tier false contact_name phone_number tier self
  = (Raise (ConfigurationError OSError),
     mkManager
       (remove_from_config contact_name phone_number tier
          (contact_tiers self))
       (message_templates self)
       (contact_cache self)).
Proof. reflexivity. Qed.

(** ** [get_reply_template] *)

Lemma get_reply_template_eq (self : ContactTierManager)
    (contact_name : string) (phone_number : option string)
    (template_type : string) :
  get_reply_template contact_name phone_number template_type self
  = match get_contact_info contact_name phone_number self with
    | (Ok contact_info, self') =>
        let tier_templates :=
          tier_templates_of self (ContactInfo.tier contact_info) in
        (Ok (or_else (tier_templates !! template_type)
                     (default EmptyString (tier_templates !! "default"))),
         self')
    | (Raise e, self') => (Raise e, self')
    end.
Proof.
  unfold get_reply_template, bind at 1.
  pose proof (get_contact_info_config self contact_name phone_number)
    as [_ Ht].
  destruct (get_contact_info contact_name phone_number self) as [[ci|e] s'];
    [|reflexivity].
  simpl in Ht. unfold bind, get_self, ret, tier_templates_of.
  now rewrite Ht.
Qed.

(** C9 as worded fails when the named template is the empty string and
    the tier has a non-empty default template: the default is returned. *)
Lemma empty_named_template_counterexample :
  ~ returns_named_template_when_present
      (load_configurations None templates_with_empty_entry)
      "Zed" None "none".
Proof.
  intros H.
  specialize (H _ _ EmptyString eq_refl eq_refl).
  vm_compute in H. discriminate H.
Qed.

(** C9, amended. Once the contact's tier is resolved the lookup does not
    fail: it returns the named template of that tier when it is present
    and not empty, otherwise the tier's "default" template when there is
    one, otherwise the empty string. *)
Theorem get_reply_template_fallback
    (self self' : ContactTierManager) (contact_name : string)
    (phone_number : option string) (template_type : string)
    (contact_info : ContactInfo.t) :
  get_contact_info contact_name phone_number self = (Ok contact_info, self') ->
  exists text,
    get_reply_template contact_name phone_number template_type self
    = (Ok text, self')
    /\ let tier_templates :=
         tier_templates_of self (ContactInfo.tier contact_info) in
       (forall named,
          tier_templates !! template_type = Some named -> named <> EmptyString ->
          text = named)
       /\ (tier_templates !! template_type = None
           \/ tier_templates !! template_type = Some EmptyString ->
           forall fallback,
             tier_templates !! "default" = Some fallback -> text = fallback)
       /\ (tier_templates !! template_type = None
           \/ tier_templates !! template_type = Some EmptyString ->
           tier_templates !! "default" = None -> text = EmptyString).
Proof.
  intros Hinfo. rewrite get_reply_template_eq, Hinfo. cbv zeta.
  eexists. split; [reflexivity|].
  set (tt := tier_templates_of self (ContactInfo.tier contact_info)).
  repeat split.
  - intros named -> Hne. simpl. destruct named; [congruence|reflexivity].
  - intros [-> | ->] fallback ->; reflexivity.
  - intros [-> | ->] ->; reflexivity.
Qed.

Lemma get_reply_template_fallback_witness :
  exists text self',
    get_reply_template "Zed" None "none"
      (load_configurations None templates_with_empty_entry)
    = (Ok text, self')
    /\ text = "Noted.".
Proof.
  destruct (get_reply_template_fallback
              (load_configurations None templates_with_empty_entry)
              _ "Zed" None "none" _ eq_refl)
    as (text & Heq & _ & Hdefault & _).
  exists text. eexists. split; [exact Heq|].
  apply Hdefault; [right|]; reflexivity.
Defined.

Example default_templates_no_default_entry :
  fst (get_reply_template "Zed" None "greeting"
         (load_configurations None default_templates))
  = Ok EmptyString.
Proof. vm_compute. reflexivity. Qed.

(** The lookup raises exactly when resolving the contact raises. *)
Lemma get_reply_template_raises_iff
    (self : ContactTierManager) (contact_name : string)
    (phone_number : option string) (template_type : string) (e : exn) :
  fst (get_reply_template contact_name phone_number template_type self)
  = Raise e
  <-> fst (get_contact_info contact_name phone_number self) = Raise e.
Proof.
  rewrite get_reply_template_eq.
  destruct (get_contact_info contact_name phone_number self) as [[ci|e'] s'];
    simpl; split; congruence.
Qed.

(** ** Effect of [add_contact_to_tier] on the ruleset *)

Lemma value_inj (t1 t2 : ContactTier) : value t1 = value t2 -> t1 = t2.
Proof. destruct t1, t2; simpl; congruence. Qed.

Lemma append_if_absent_In (x : string) (l : list string) :
  In x (append_if_absent x l).
Proof.
  unfold append_if_absent. destruct (elem x l) eqn:E.
  - now apply elem_In.
  - apply in_or_app. right. now left.
Qed.

Lemma append_if_absent_idem (x : string) (l : list string) :
  append_if_absent x (append_if_absent x l) = append_if_absent x l.
Proof.
  unfold append_if_absent at 1.
  now rewrite (proj2 (elem_In _ _) (append_if_absent_In x l)).
Qed.

Lemma append_if_absent_NoDup (x : string) (l : list string) :
  NoDup l -> NoDup (append_if_absent x l).
Proof.
  intros H. unfold append_if_absent. destruct (elem x l) eqn:E; [exact H|].
  apply elem_false in E. apply NoDup_app. repeat split.
  - exact H.
  - intros y Hy [-> | []]%list_elem_of_In. now apply E, list_elem_of_In.
  - apply NoDup_singleton.
Qed.

Lemma add_entries_idem (contact_name : string)
    (phone_number : option string) (tier_data : TierData.t) :
  add_entries contact_name phone_number
    (add_entries contact_name phone_number tier_data)
  = add_entries contact_name phone_number tier_data.
Proof.
  unfold add_entries. cbn -[append_if_absent sanitize_phone_number truthy].
  rewrite append_if_absent_idem.
  destruct (truthy phone_number); [|reflexivity].
  cbn -[append_if_absent sanitize_phone_number].
  now rewrite append_if_absent_idem.
Qed.

Lemma add_to_config_idem (contact_name : string)
    (phone_number : option string) (tier : ContactTier) (cfg : Config.t) :
  add_to_config contact_name phone_number tier
    (add_to_config contact_name phone_number tier cfg)
  = add_to_config contact_name phone_number tier cfg.
Proof.
  unfold add_to_config. cbn -[add_entries insert lookup].
  rewrite lookup_insert_eq. cbn -[add_entries insert lookup].
  now rewrite add_entries_idem, insert_insert_eq.
Qed.

Lemma contact_tiers_after_add (io_ok : bool) (self : ContactTierManager)
    (contact_name : string) (phone_number : option string)
    (tier : ContactTier) :
  contact_tiers
    (snd (add_contact_to_tier io_ok contact_name phone_number tier self))
  = add_to_config contact_name phone_number tier (contact_tiers self).
Proof. now destruct io_ok. Qed.

Lemma tier_data_of_add_same (io_ok : bool) (self : ContactTierManager)
    (contact_name : string) (phone_number : option string)
    (tier : ContactTier) :
  tier_data_of
    (snd (add_contact_to_tier io_ok contact_name phone_number tier self)) tier
  = add_entries contact_name phone_number (tier_data_of self tier).
Proof.
  unfold tier_data_of at 1. rewrite contact_tiers_after_add.
  unfold add_to_config. cbn -[add_entries insert lookup].
  now rewrite lookup_insert_eq.
Qed.

Lemma tier_data_of_add_other (io_ok : bool) (self : ContactTierManager)
    (contact_name : string) (phone_number : option string)
    (tier other : ContactTier) :
  other <> tier ->
  tier_data_of
    (snd (add_contact_to_tier io_ok contact_name phone_number tier self)) other
  = tier_data_of self other.
Proof.
  intros Hne. unfold tier_data_of. rewrite contact_tiers_after_add.
  unfold add_to_config. cbn -[add_entries insert lookup].
  rewrite lookup_insert_ne; [reflexivity|].
  intros E. apply Hne. symmetry. now apply value_inj.
Qed.

Lemma names_of_add (io_ok : bool) (self : ContactTierManager)
    (contact_name : string) (phone_number : option string)
    (tier : ContactTier) :
  names_of
    (snd (add_contact_to_tier io_ok contact_name phone_number tier self)) tier
  = append_if_absent contact_name (names_of self tier).
Proof. unfold names_of. now rewrite tier_data_of_add_same. Qed.

Lemma phones_of_add (io_ok : bool) (self : ContactTierManager)
    (contact_name : string) (phone_number : option string)
    (tier : ContactTier) :
  phones_of
    (snd (add_contact_to_tier io_ok contact_name phone_number tier self)) tier
  = if truthy phone_number
    then append_if_absent (sanitize_phone_number phone_number)
                          (phones_of self tier)
    else phones_of self tier.
Proof.
  unfold phones_of. rewrite tier_data_of_add_same. unfold add_entries.
  cbn -[append_if_absent sanitize_phone_number truthy].
  now destruct (truthy phone_number).
Qed.

(** C5. Adding the same contact to the same tier twice leaves the ruleset
    as one addition leaves it, whether or not the saves succeed, and lists
    without duplicates stay without duplicates. *)
Theorem add_contact_twice_same_ruleset
    (io1 io2 : bool) (self : ContactTierManager) (contact_name : string)
    (phone_number : option string) (tier : ContactTier) :
  let once :=
    snd (add_contact_to_tier io1 contact_name phone_number tier self) in
  let twice :=
    snd (add_contact_to_tier io2 contact_name phone_number tier once) in
  contact_tiers twice = contact_tiers once
  /\ (NoDup (names_of self tier) -> NoDup (names_of twice tier))
  /\ (NoDup (phones_of self tier) -> NoDup (phones_of twice tier)).
Proof.
  intros once twice. subst once twice.
  assert (E : contact_tiers
                (snd (add_contact_to_tier io2 contact_name phone_number tier
                        (snd (add_contact_to_tier io1 contact_name
                                phone_number tier self))))
              = contact_tiers
                  (snd (add_contact_to_tier io1 contact_name phone_number
                          tier self))).
  { rewrite !contact_tiers_after_add. apply add_to_config_idem. }
  split; [exact E|].
  rewrite !names_of_add, !phones_of_add. split; intros H.
  - now apply append_if_absent_NoDup, append_if_absent_NoDup.
  - destruct (truthy phone_number); [|exact H].
    now apply append_if_absent_NoDup, append_if_absent_NoDup.
Qed.

Lemma add_contact_twice_same_ruleset_witness :
  let once :=
    snd (add_contact_to_tier true "Bob" (Some "+1 555-0100") TIME_PASS
           overlapping_manager) in
  let twice :=
    snd (add_contact_to_tier true "Bob" (Some "+1 555-0100") TIME_PASS
           once) in
  contact_tiers twice = contact_tiers once
  /\ NoDup (names_of twice TIME_PASS)
  /\ NoDup (phones_of twice TIME_PASS).
Proof.
  destruct (add_contact_twice_same_ruleset true true overlapping_manager
              "Bob" (Some "+1 555-0100") TIME_PASS) as (E & Hn & Hp).
  split; [exact E|]. split.
  - apply Hn. vm_compute.
    repeat constructor; intros H; inversion H; subst;
      try discriminate; inversion_clear H2.
  - apply Hp. vm_compute. constructor.
Defined.

(** ** What [add_contact_to_tier] stores *)

(** C6 as worded fails for a name that is not already in normalized
    form: the name is stored as it was passed. *)
Lemma stores_raw_name_counterexample :
  ~ stores_normalized_name (load_configurations None no_templates)
      " Bob " None TIME_PASS.
Proof.
  unfold stores_normalized_name. vm_compute.
  intros [H | []]. discriminate H.
Qed.

(** C6, amended. The name is appended to the tier's [by_name] exactly as
    it was passed, unless that very string is already listed; when a
    non-empty phone is passed, its normalized form is appended to
    [by_phone] unless already listed; without a phone [by_phone] is left
    alone. *)
Theorem add_contact_stores_raw_name_clean_phone
    (io_ok : bool) (self : ContactTierManager) (contact_name : string)
    (phone_number : option string) (tier : ContactTier) :
  let self' :=
    snd (add_contact_to_tier io_ok contact_name phone_number tier self) in
  let clean_phone := sanitize_phone_number phone_number in
  In contact_name (names_of self' tier)
  /\ (In contact_name (names_of self tier) ->
      names_of self' tier = names_of self tier)
  /\ (~ In contact_name (names_of self tier) ->
      names_of self' tier = names_of self tier ++ [contact_name])
  /\ (truthy phone_number = true ->
      In clean_phone (phones_of self' tier)
      /\ (In clean_phone (phones_of self tier) ->
          phones_of self' tier = phones_of self tier)
      /\ (~ In clean_phone (phones_of self tier) ->
          phones_of self' tier = phones_of self tier ++ [clean_phone]))
  /\ (truthy phone_number = false ->
      phones_of self' tier = phones_of self tier).
Proof.
  cbv zeta. rewrite names_of_add, phones_of_add.
  split; [apply append_if_absent_In|].
  split; [intros H%elem_In; unfold append_if_absent; now rewrite H|].
  split; [intros H%elem_false; unfold append_if_absent; now rewrite H|].
  split; intros T; rewrite T; [|reflexivity].
  split; [apply append_if_absent_In|].
  split; [intros H%elem_In|intros H%elem_false];
    unfold append_if_absent; now rewrite H.
Qed.

Lemma add_contact_stores_raw_name_clean_phone_witness :
  let self' :=
    snd (add_contact_to_tier true " Bob " (Some "+1 555-0100") TIME_PASS
           (load_configurations None no_templates)) in
  names_of self' TIME_PASS = [" Bob "]
  /\ phones_of self' TIME_PASS = ["+15550100"].
Proof.
  destruct (add_contact_stores_raw_name_clean_phone true
              (load_configurations None no_templates)
              " Bob " (Some "+1 555-0100") TIME_PASS)
    as (_ & _ & Hn & Hp & _).
  split.
  - apply Hn. vm_compute. intros [].
  - destruct (Hp eq_refl) as (_ & _ & Hp'). apply Hp'.
    vm_compute. intros [].
Defined.

(** ** The cache after an addition *)

Lemma is_contact_in_tier_same_data (s1 s2 : ContactTierManager)
    (clean_name : string) (clean_phone : option string) (tier : ContactTier) :
  tier_data_of s1 tier = tier_data_of s2 tier ->
  _is_contact_in_tier s1 clean_name clean_phone tier
  = _is_contact_in_tier s2 clean_name clean_phone tier.
Proof. intros E. unfold _is_contact_in_tier. now rewrite E. Qed.

Lemma cache_after_add (self : ContactTierManager) (contact_name : string)
    (phone_number : option string) (tier : ContactTier) :
  contact_cache (after_add contact_name phone_number tier self)
    !! cache_key contact_name phone_number = None.
Proof.
  unfold after_add. rewrite add_contact_to_tier_saved. simpl.
  apply lookup_delete_eq.
Qed.

(** The query after an addition is a cache miss. *)
Lemma query_after_add_recomputed (self : ContactTierManager)
    (contact_name : string) (phone_number : option string)
    (tier : ContactTier) :
  fst (get_contact_info contact_name phone_number
         (after_add contact_name phone_number tier self))
  = fresh_contact_info (after_add contact_name phone_number tier self)
      contact_name phone_number.
Proof.
  rewrite get_contact_info_miss by apply cache_after_add.
  unfold fresh_contact_info.
  now destruct (categorize_contact _ contact_name phone_number) as [[t s]|e].
Qed.

(** The scan of the updated ruleset stops at the tier added to when no
    earlier tier matched before the addition. *)
Lemma first_matching_tier_after_add (self : ContactTierManager)
    (contact_name : string) (phone_number : option string)
    (tier : ContactTier) :
  (forall t', precedes t' tier ->
              ~ tier_matches self contact_name phone_number t') ->
  first_matching_tier (after_add contact_name phone_number tier self)
    (clean_name_of contact_name) (clean_phone_of phone_number) tier_priority
  = Some tier.
Proof.
  intros Hbefore. apply first_matching_tier_Some.
  - apply is_contact_in_tier_spec. left. exists contact_name.
    split; [|reflexivity]. unfold after_add. rewrite names_of_add.
    apply append_if_absent_In.
  - intros t' Ht'.
    rewrite (is_contact_in_tier_same_data _ self).
    + now apply is_contact_in_tier_false, Hbefore.
    + apply tier_data_of_add_other. intros ->.
      unfold precedes in Ht'. lia.
Qed.

(** Precedence still rules after an addition: "bob" is listed under
    MAIN, is added to NOT_IMPORTANT, and still resolves to MAIN. *)
Lemma add_below_matching_tier_counterexample :
  ~ query_after_add_returns_tier overlapping_manager "bob" None NOT_IMPORTANT.
Proof.
  intros (ci & self' & H & Ht).
  apply (f_equal fst) in H. rewrite query_after_add_recomputed in H.
  vm_compute in H. injection H as <-. discriminate Ht.
Qed.

(** After a saved addition the cache holds no entry under the key of the
    addition's own arguments, so a query with those very arguments is
    resolved on the updated ruleset; it returns the tier added to
    whenever no tier of higher precedence matches the contact. *)
Lemma query_after_add_is_fresh
    (self : ContactTierManager) (contact_name : string)
    (phone_number : option string) (tier : ContactTier) :
  let self1 := after_add contact_name phone_number tier self in
  contact_cache self1 !! cache_key contact_name phone_number = None
  /\ fst (get_contact_info contact_name phone_number self1)
     = fresh_contact_info self1 contact_name phone_number
  /\ ((forall t', precedes t' tier ->
                  ~ tier_matches self contact_name phone_number t') ->
      query_after_add_returns_tier self contact_name phone_number tier).
Proof.
  cbv zeta. split; [apply cache_after_add|].
  split; [apply query_after_add_recomputed|].
  intros Hbefore. unfold query_after_add_returns_tier.
  rewrite get_contact_info_miss by apply cache_after_add.
  unfold categorize_contact.
  rewrite (first_matching_tier_after_add _ _ _ _ Hbefore).
  cbv zeta. eexists. eexists. split; reflexivity.
Qed.

Lemma query_after_add_is_fresh_witness :
  query_after_add_returns_tier overlapping_manager "Dave" (Some "555 0199")
    NOT_IMPORTANT.
Proof.
  apply (query_after_add_is_fresh overlapping_manager "Dave"
           (Some "555 0199") NOT_IMPORTANT).
  intros t' Ht'. apply is_contact_in_tier_false.
  destruct t'; unfold precedes in Ht'; simpl in Ht'; try lia;
    vm_compute; reflexivity.
Defined.

(** C3, at a failing input.  The contact "Bob" with phone "+15550100" is
    queried on the stock ruleset and cached as NOT_IMPORTANT; the same
    contact is then added to MAIN with the phone written "+1 555-0100",
    and the addition is saved.  Only the key of the addition's own
    arguments is deleted from the cache, so the first query, repeated,
    still returns the cached NOT_IMPORTANT entry, although the updated
    ruleset resolves that very query to MAIN. *)
Theorem stale_tier_after_add_with_other_formatting :
  let cached :=
    snd (get_contact_info "Bob" (Some "+15550100")
           (load_configurations None no_templates)) in
  let added :=
    add_contact_to_tier true "Bob" (Some "+1 555-0100") MAIN_CONTACTS
      cached in
  fst added = Ok true
  /\ (exists contact_info,
        fst (get_contact_info "Bob" (Some "+15550100") (snd added))
        = Ok contact_info
        /\ ContactInfo.tier contact_info = NOT_IMPORTANT)
  /\ categorize_contact (snd added) "Bob" (Some "+15550100")
     = Ok (MAIN_CONTACTS, _get_tier_settings (snd added) MAIN_CONTACTS)
  /\ cache_key "Bob" (Some "+1 555-0100") <> cache_key "Bob" (Some "+15550100").
Proof.
  cbv zeta. split; [reflexivity|]. split; [|split].
  - eexists. split; vm_compute; reflexivity.
  - vm_compute. reflexivity.
  - vm_compute. discriminate.
Qed.

(** A query that spells the contact differently has its own cache key,
    which the addition does not touch: an entry cached for "Bob" before
    "bob" is added to MAIN is still returned afterwards. *)
Lemma other_spelling_keeps_cached_entry :
  let cached :=
    snd (get_contact_info "Bob" None
           (load_configurations None no_templates)) in
  let self1 := after_add "bob" None MAIN_CONTACTS cached in
  (exists contact_info,
     fst (get_contact_info "Bob" None self1) = Ok contact_info
     /\ ContactInfo.tier contact_info = NOT_IMPORTANT)
  /\ (exists settings,
        categorize_contact self1 "Bob" None = Ok (MAIN_CONTACTS, settings)).
Proof.
  cbv zeta. split; eexists; [split|]; vm_compute; reflexivity.
Qed.

(** The scenarios of the specification. *)
Example scenario_name_keyword_default :
  let self := load_configurations (Some scenario_config) no_templates in
  categorize_contact self "Alice" (Some EmptyString)
  = Ok (MAIN_CONTACTS, _get_tier_settings self MAIN_CONTACTS)
  /\ categorize_contact self "Promo Team" (Some EmptyString)
     = Ok (NOT_IMPORTANT, _get_tier_settings self NOT_IMPORTANT)
  /\ categorize_contact self "Bob" (Some EmptyString)
     = Ok (NOT_IMPORTANT, _get_tier_settings self NOT_IMPORTANT).
Proof. repeat split. Qed.

Example scenario_phone_match_after_add :
  exists settings,
    categorize_contact
      (after_add "Bob" (Some "+1 555-0100") TIME_PASS
         (load_configurations None no_templates))
      "bob" (Some "5550100")
    = Ok (TIME_PASS, settings).
Proof. eexists. vm_compute. reflexivity. Qed.

Example sanitize_doc_1 :
  sanitize_phone_number (Some "+1 (555) 123-4567") = "+15551234567".
Proof. reflexivity. Qed.

Example sanitize_doc_2 :
  sanitize_phone_number (Some "555.123.4567") = "5551234567".
Proof. reflexivity. Qed.

(** ** Keys of the contact cache *)

Lemma keyed_by_own_identity_delete (self : ContactTierManager)
    (cfg : Config.t) (k : string) :
  keyed_by_own_identity self ->
  keyed_by_own_identity
    (mkManager cfg (message_templates self) (delete k (contact_cache self))).
Proof.
  intros Hinv k' ci. simpl. rewrite lookup_delete_Some.
  intros [_ H]. now apply Hinv.
Qed.

Lemma keyed_by_own_identity_config (self : ContactTierManager)
    (cfg : Config.t) :
  keyed_by_own_identity self ->
  keyed_by_own_identity
    (mkManager cfg (message_templates self) (contact_cache self)).
Proof. intros Hinv k' ci. simpl. apply Hinv. Qed.

Lemma keyed_by_own_identity_get (self : ContactTierManager)
    (contact_name : string) (phone_number : option string) :
  keyed_by_own_identity self ->
  keyed_by_own_identity
    (snd (get_contact_info contact_name phone_number self)).
Proof.
  intros Hinv.
  destruct (contact_cache self !! cache_key contact_name phone_number)
    as [ci|] eqn:H.
  - now rewrite (get_contact_info_hit _ _ _ _ H).
  - rewrite (get_contact_info_miss _ _ _ H).
    destruct (categorize_contact self contact_name phone_number)
      as [[t s]|e]; [|exact Hinv].
    intros k ci. simpl. rewrite lookup_insert_Some.
    intros [[<- <-] | [_ Hk]]; [|now apply Hinv].
    simpl. symmetry. apply cache_key_or_else.
Qed.

Lemma keyed_by_own_identity_run_call (c : call) (self : ContactTierManager) :
  keyed_by_own_identity self -> keyed_by_own_identity (run_call c self).
Proof.
  intros Hinv. destruct c as [n p | io n p t | io n p t | ]; simpl.
  - now apply keyed_by_own_identity_get.
  - destruct io.
    + rewrite add_contact_to_tier_saved.
      now apply keyed_by_own_identity_delete.
    + rewrite add_contact_to_tier_unsaved.
      now apply keyed_by_own_identity_config.
  - destruct io.
    + rewrite remove_contact_from_tier_saved.
      now apply keyed_by_own_identity_delete.
    + rewrite remove_contact_from_tier_unsaved.
      now apply keyed_by_own_identity_config.
  - intros k ci. simpl. now rewrite lookup_empty.
Qed.

Lemma keyed_by_own_identity_run_calls (cs : list call)
    (self : ContactTierManager) :
  keyed_by_own_identity self -> keyed_by_own_identity (run_calls cs self).
Proof.
  revert self. induction cs as [|c cs IH]; intros self Hinv; [exact Hinv|].
  simpl. now apply IH, keyed_by_own_identity_run_call.
Qed.

(** C7 as worded fails: "Bob" and "bob" normalize to the same identity
    and yet get one cache entry each, under "Bob:no_phone" and
    "bob:no_phone". *)
Lemma raw_cache_key_counterexample :
  ~ one_entry_per_normalized_identity
      (run_calls [CallGetContactInfo "Bob" None; CallGetContactInfo "bob" None]
         (load_configurations None no_templates)).
Proof.
  intros H.
  specialize (H "Bob:no_phone" "bob:no_phone" _ _ eq_refl eq_refl
                eq_refl eq_refl).
  discriminate H.
Qed.

(** C7, amended. In every state reached from a freshly loaded manager by
    queries, additions, removals and cache clearing, each cache entry is
    stored under the key made of its own name, ":" and its own phone
    ("no_phone" when empty), both as they were passed to the query; two
    entries with the same name and phone are therefore one entry. *)
Theorem cache_keyed_by_raw_identity
    (config_file : option Config.t) (templates_file : Templates.t)
    (calls : list call) :
  let self := run_calls calls (load_configurations config_file templates_file)
  in
  (forall k contact_info,
     contact_cache self !! k = Some contact_info ->
     k = ContactInfo.name contact_info +:+ ":"
         +:+ or_else (Some (ContactInfo.phone contact_info)) "no_phone")
  /\ (forall k1 k2 i1 i2,
        contact_cache self !! k1 = Some i1 ->
        contact_cache self !! k2 = Some i2 ->
        ContactInfo.name i1 = ContactInfo.name i2 ->
        ContactInfo.phone i1 = ContactInfo.phone i2 ->
        k1 = k2 /\ i1 = i2).
Proof.
  cbv zeta.
  assert (Hinv : keyed_by_own_identity
                   (run_calls calls
                      (load_configurations config_file templates_file))).
  { apply keyed_by_own_identity_run_calls. intros k ci. simpl.
    now rewrite lookup_empty. }
  split; [exact Hinv|].
  intros k1 k2 i1 i2 H1 H2 En Ep.
  assert (E : k1 = k2).
  { rewrite (Hinv _ _ H1), (Hinv _ _ H2). now rewrite En, Ep. }
  split; [exact E|]. subst k2. congruence.
Qed.

Lemma cache_keyed_by_raw_identity_witness :
  let self :=
    run_calls [CallGetContactInfo "Bob" (Some "+1 555");
               CallAdd true "Al" None MAIN_CONTACTS;
               CallGetContactInfo "Al" None]
      (load_configurations None no_templates) in
  let bob :=
    ContactInfo.mk "Bob" "+1 555" NOT_IMPORTANT
      (ContactSettings.mk false false "none" false "low") None in
  contact_cache self !! "Bob:+1 555" = Some bob
  /\ "Bob:+1 555"
     = ContactInfo.name bob +:+ ":"
       +:+ or_else (Some (ContactInfo.phone bob)) "no_phone".
Proof.
  cbv zeta. split; [vm_compute; reflexivity|].
  refine (proj1 (cache_keyed_by_raw_identity None no_templates
                   [CallGetContactInfo "Bob" (Some "+1 555");
                    CallAdd true "Al" None MAIN_CONTACTS;
                    CallGetContactInfo "Al" None])
            "Bob:+1 555" _ _).
  vm_compute. reflexivity.
Defined.

(** ** [truncate_text] *)

Lemma string_length_append (a b : string) :
  String.length (a +:+ b) = String.length a + String.length b.
Proof. induction a as [|c a IH]; simpl; [reflexivity|]. now rewrite IH. Qed.

Lemma length_take_chars (n : nat) (s : string) :
  String.length (take_chars n s) = Nat.min n (String.length s).
Proof.
  revert s. induction n as [|n IH]; intros [|c s]; simpl; try reflexivity.
  now rewrite IH.
Qed.

Lemma length_slice_to (k : Z) (s : string) :
  Z.of_nat (String.length (slice_to k s))
  = if (k <? 0)%Z
    then Z.max (Z.of_nat (String.length s) + k) 0
    else Z.min k (Z.of_nat (String.length s)).
Proof.
  unfold slice_to. rewrite length_take_chars.
  destruct (k <? 0)%Z eqn:E; [apply Z.ltb_lt in E|apply Z.ltb_ge in E]; lia.
Qed.

(** X1. When the suffix fits into [max_length], the result never exceeds
    [max_length]: a text within the limit is returned unchanged, and a
    longer one becomes its first [max_length - len(suffix)] characters
    followed by the suffix, [max_length] characters in all. *)
Theorem truncate_text_within_limit
    (text suffix : string) (max_length : Z) :
  (Z.of_nat (String.length suffix) <= max_length)%Z ->
  let result := truncate_text text max_length suffix in
  (Z.of_nat (String.length result) <= max_length)%Z
  /\ ((Z.of_nat (String.length text) <= max_length)%Z -> result = text)
  /\ ((max_length < Z.of_nat (String.length text))%Z ->
      result
      = take_chars (Z.to_nat (max_length - Z.of_nat (String.length suffix)))
          text +:+ suffix
      /\ Z.of_nat (String.length result) = max_length).
Proof.
  intros Hfit. cbv zeta. unfold truncate_text.
  destruct (Z.of_nat (String.length text) <=? max_length)%Z eqn:E.
  - apply Z.leb_le in E. rewrite orb_true_r.
    split; [exact E|]. split; [reflexivity|]. lia.
  - apply Z.leb_gt in E. rewrite orb_false_r.
    destruct text as [|c text]; [simpl in E; lia|]. cbn [is_empty].
    assert (L : Z.of_nat
                  (String.length
                     (slice_to (max_length - Z.of_nat (String.length suffix))
                        (String c text) +:+ suffix)) = max_length).
    { rewrite string_length_append, Nat2Z.inj_add, length_slice_to.
      destruct (max_length - Z.of_nat (String.length suffix) <? 0)%Z eqn:K;
        [apply Z.ltb_lt in K|apply Z.ltb_ge in K]; lia. }
    split; [lia|]. split; [lia|]. intros _. split; [|exact L].
    unfold slice_to.
    destruct (max_length - Z.of_nat (String.length suffix) <? 0)%Z eqn:K;
      [apply Z.ltb_lt in K; lia|].
    do 2 f_equal. lia.
Qed.

Lemma truncate_text_within_limit_witness :
  truncate_text "hello world" 8 "..." = "hello...".
Proof.
  destruct (truncate_text_within_limit "hello world" "..." 8) as (_ & _ & H).
  - simpl. lia.
  - destruct H as [H _]; [simpl; lia|]. exact H.
Defined.

(** X2. When [max_length] is smaller than the suffix, the slice bound is
    negative and counts from the end of the text: a text longer than
    [max_length] yields a result that is longer than [max_length]. *)
Theorem truncate_text_short_limit_overflows
    (text suffix : string) (max_length : Z) :
  (max_length < Z.of_nat (String.length suffix))%Z ->
  (max_length < Z.of_nat (String.length text))%Z ->
  (max_length
   < Z.of_nat (String.length (truncate_text text max_length suffix)))%Z.
Proof.
  intros Hs Ht. unfold truncate_text.
  destruct (is_empty text
            || (Z.of_nat (String.length text) <=? max_length)%Z); [exact Ht|].
  rewrite string_length_append, Nat2Z.inj_add. lia.
Qed.

Lemma truncate_text_short_limit_overflows_witness :
  (2 < Z.of_nat (String.length (truncate_text "hello world" 2 "...")))%Z.
Proof.
  apply truncate_text_short_limit_overflows; simpl; lia.
Defined.

(** ** [extract_contact_name] *)

Lemma before_first_cons (ch c : ascii) (s : string) :
  before_first ch (String c s)
  = if Ascii.eqb c ch then EmptyString else String c (before_first ch s).
Proof.
  unfold before_first. simpl. destruct (Ascii.eqb c ch); [reflexivity|].
  destruct (split ch s) as [|h t] eqn:E; [now apply split_not_nil in E|].
  reflexivity.
Qed.

Lemma before_first_no_char (ch : ascii) (s : string) :
  all_chars (not_char ch) (before_first ch s) = true.
Proof.
  induction s as [|c s IH]; [reflexivity|].
  rewrite before_first_cons. destruct (Ascii.eqb c ch) eqn:E; [reflexivity|].
  simpl. unfold not_char at 1. now rewrite E, IH.
Qed.

Lemma all_chars_before_first (p : ascii -> bool) (ch : ascii) (s : string) :
  all_chars p s = true -> all_chars p (before_first ch s) = true.
Proof.
  induction s as [|c s IH]; [reflexivity|].
  rewrite before_first_cons. simpl. intros [Hc Hs]%andb_true_iff.
  destruct (Ascii.eqb c ch); [reflexivity|]. simpl. now rewrite Hc, IH.
Qed.

Lemma all_chars_lstrip (p : ascii -> bool) (s : string) :
  all_chars p s = true -> all_chars p (lstrip s) = true.
Proof.
  induction s as [|c s IH]; simpl; [reflexivity|].
  intros [Hc Hs]%andb_true_iff.
  destruct (is_space c); [now apply IH|]. simpl. now rewrite Hc, Hs.
Qed.

Lemma all_chars_rstrip (p : ascii -> bool) (s : string) :
  all_chars p s = true -> all_chars p (rstrip s) = true.
Proof.
  induction s as [|c s IH]; simpl; [reflexivity|].
  intros [Hc Hs]%andb_true_iff.
  destruct (is_space c && is_empty (rstrip s)); [reflexivity|].
  simpl. now rewrite Hc, IH.
Qed.

Lemma all_chars_strip (p : ascii -> bool) (s : string) :
  all_chars p s = true -> all_chars p (strip s) = true.
Proof. intros H. now apply all_chars_rstrip, all_chars_lstrip. Qed.

Lemma all_chars_sub_plus_digits (p : ascii -> bool) (b : bool) (s : string) :
  all_chars p s = true -> all_chars p (sub_plus_digits b s) = true.
Proof.
  revert b. induction s as [|c s IH]; intros b; simpl; [reflexivity|].
  intros [Hc Hs]%andb_true_iff.
  destruct (b && is_digit c); [now apply IH|].
  destruct (Ascii.eqb c plus_sign && _); [now apply IH|].
  simpl. now rewrite Hc, IH.
Qed.

(** Does the string start with a digit? *)
Lemma sub_plus_digits_in_match_head (s : string) :
  match sub_plus_digits true s with
  | String d _ => is_digit d = false
  | EmptyString => True
  end.
Proof.
  induction s as [|c s IH]; simpl; [exact I|].
  destruct (is_digit c) eqn:D; [exact IH|].
  destruct (Ascii.eqb c plus_sign && _); [exact IH|exact D].
Qed.

Lemma sub_plus_digits_head (s : string) :
  match s with String d _ => is_digit d = false | EmptyString => True end ->
  match sub_plus_digits false s with
  | String d _ => is_digit d = false
  | EmptyString => True
  end.
Proof.
  destruct s as [|c s]; simpl; [exact id|]. intros D.
  destruct (Ascii.eqb c plus_sign && _);
    [apply sub_plus_digits_in_match_head|exact D].
Qed.

Lemma sub_plus_digits_no_plus_digit (b : bool) (s : string) :
  no_plus_digit (sub_plus_digits b s) = true.
Proof.
  revert b. induction s as [|c s IH]; intros b; simpl; [reflexivity|].
  destruct (b && is_digit c); [apply IH|].
  destruct (Ascii.eqb c plus_sign) eqn:P; simpl.
  - apply Ascii.eqb_eq in P. subst c.
    destruct s as [|d s']; [reflexivity|].
    destruct (is_digit d) eqn:D; [apply IH|].
    cbn [no_plus_digit]. rewrite IH, andb_true_r.
    pose proof (sub_plus_digits_head (String d s') D) as H.
    destruct (sub_plus_digits false (String d s')) as [|e r];
      [reflexivity|now rewrite H].
  - now rewrite P, IH.
Qed.

Lemma no_plus_digit_lstrip (s : string) :
  no_plus_digit s = true -> no_plus_digit (lstrip s) = true.
Proof.
  induction s as [|c s IH]; [reflexivity|].
  cbn [no_plus_digit lstrip]. intros [Hc Hs]%andb_true_iff.
  destruct (is_space c); [now apply IH|].
  cbn [no_plus_digit]. now rewrite Hc, Hs.
Qed.

Lemma rstrip_head (s : string) :
  match rstrip s with
  | String d _ => exists r, s = String d r
  | EmptyString => True
  end.
Proof.
  destruct s as [|c s]; simpl; [exact I|].
  destruct (is_space c && is_empty (rstrip s)); [exact I|]. now exists s.
Qed.

Lemma no_plus_digit_rstrip (s : string) :
  no_plus_digit s = true -> no_plus_digit (rstrip s) = true.
Proof.
  induction s as [|c s IH]; [reflexivity|].
  cbn [no_plus_digit rstrip]. intros [Hc Hs]%andb_true_iff.
  destruct (is_space c && is_empty (rstrip s)); [reflexivity|].
  cbn [no_plus_digit]. rewrite (IH Hs), andb_true_r.
  pose proof (rstrip_head s) as H.
  destruct (rstrip s) as [|d r]; [now rewrite andb_false_r|].
  destruct H as [r' ->]. exact Hc.
Qed.

Lemma not_char_contains (ch : ascii) (s : string) :
  all_chars (not_char ch) s = true -> contains_char ch s = false.
Proof. apply contains_char_false. Qed.

(** X3. The extracted name is never empty, has no surrounding whitespace,
    contains neither '(' nor ':', and no '+' directly followed by a
    digit. *)
Theorem extract_contact_name_clean (full_contact_info : string) :
  let name := extract_contact_name full_contact_info in
  name <> EmptyString
  /\ strip name = name
  /\ contains_char "("%char name = false
  /\ contains_char ":"%char name = false
  /\ no_plus_digit name = true.
Proof.
  cbv zeta. unfold extract_contact_name.
  destruct (is_empty full_contact_info); [now repeat split|].
  set (n1 := strip (before_first "("%char full_contact_info)).
  set (n2 := strip (before_first ":"%char n1)).
  set (n3 := strip (sub_plus_digits false n2)).
  assert (H1 : all_chars (not_char "("%char) n1 = true)
    by apply all_chars_strip, before_first_no_char.
  assert (H2 : all_chars (not_char ":"%char) n2 = true)
    by apply all_chars_strip, before_first_no_char.
  assert (H2' : all_chars (not_char "("%char) n2 = true)
    by now apply all_chars_strip, all_chars_before_first.
  destruct (is_empty n3) eqn:E; [now repeat split|].
  split; [intros Z; now rewrite Z in E|].
  split; [apply strip_idem|].
  split; [|split].
  - now apply not_char_contains, all_chars_strip, all_chars_sub_plus_digits.
  - now apply not_char_contains, all_chars_strip, all_chars_sub_plus_digits.
  - apply no_plus_digit_rstrip, no_plus_digit_lstrip,
      sub_plus_digits_no_plus_digit.
Qed.

(** An input with nothing but whitespace, a parenthesised part, a status
    part or phone numbers in it yields the placeholder "Unknown". *)
Example extract_contact_name_examples :
  extract_contact_name "John Doe (+1 555)" = "John Doe"
  /\ extract_contact_name "Ann: online" = "Ann"
  /\ extract_contact_name " +15551234 " = "Unknown"
  /\ extract_contact_name EmptyString = "Unknown".
Proof. repeat split. Qed.

(** ** [clean_message_text] *)

Lemma collapse_whitespace_chars (b : bool) (s : string) :
  all_chars (fun c => negb (is_space c) || Ascii.eqb c " "%char)
            (collapse_whitespace b s) = true.
Proof.
  revert b. induction s as [|c s IH]; intros b; simpl; [reflexivity|].
  destruct (is_space c) eqn:E.
  - destruct b; [apply IH|]. simpl. apply IH.
  - simpl. now rewrite E, IH.
Qed.

Lemma keep_chars_both (p q : ascii -> bool) (s : string) :
  all_chars q s = true ->
  all_chars (fun c => p c && q c) (keep_chars p s) = true.
Proof.
  induction s as [|c s IH]; simpl; [reflexivity|].
  intros [Hc Hs]%andb_true_iff.
  destruct (p c) eqn:P; simpl; [now rewrite P, Hc, IH|now apply IH].
Qed.

(** X4. On ASCII text the cleaned message has no control character and no
    whitespace other than the space: tabs and line breaks have become
    spaces. *)
Theorem clean_message_text_chars (text : string) :
  all_chars is_ascii text = true ->
  all_chars is_clean_char (clean_message_text text) = true.
Proof.
  intros _. unfold clean_message_text.
  destruct (is_empty text); [reflexivity|].
  apply (keep_chars_both (fun c => negb (is_control c))).
  apply all_chars_strip, collapse_whitespace_chars.
Qed.

Lemma clean_message_text_chars_witness :
  all_chars is_clean_char (clean_message_text "  a   b  ") = true.
Proof. apply clean_message_text_chars. reflexivity. Defined.

Lemma collapse_whitespace_blank (s : string) :
  all_chars is_space s = true ->
  collapse_whitespace true s = EmptyString.
Proof.
  induction s as [|c s IH]; simpl; [reflexivity|].
  intros [Hc Hs]%andb_true_iff. rewrite Hc. now apply IH.
Qed.

(** X5. A message made of whitespace only is cleaned to the empty string. *)
Theorem clean_message_text_blank (text : string) :
  all_chars is_space text = true ->
  clean_message_text text = EmptyString.
Proof.
  intros H. unfold clean_message_text.
  destruct text as [|c s]; [reflexivity|]. cbn [is_empty].
  simpl in H. apply andb_true_iff in H as [Hc Hs].
  cbn [collapse_whitespace]. rewrite Hc, (collapse_whitespace_blank _ Hs).
  reflexivity.
Qed.

Lemma clean_message_text_blank_witness :
  clean_message_text "    " = EmptyString.
Proof. apply clean_message_text_blank. reflexivity. Defined.

(** ** [sanitize_phone_number]: shape, idempotence, digits *)

(** X6. The result is made of digits, except that its first character may be
    a '+': no other character survives and a '+' is never found past
    position 0. *)
Theorem sanitize_phone_number_plus_only_in_front (phone : option string) :
  match sanitize_phone_number phone with
  | EmptyString => True
  | String c rest =>
      (is_digit c = true \/ c = plus_sign)
      /\ all_chars is_digit rest = true
      /\ contains_char plus_sign rest = false
  end.
Proof.
  destruct (sanitize_shape phone) as (d & Hd & [-> | ->]).
  - destruct d as [|c rest]; [exact I|]. simpl in Hd.
    apply andb_true_iff in Hd as [Hc Hrest].
    split; [now left|]. split; [exact Hrest|].
    apply contains_char_false.
    eapply all_chars_weaken; [apply digit_not_plus|exact Hrest].
  - simpl. split; [now right|]. split; [exact Hd|].
    apply contains_char_false.
    eapply all_chars_weaken; [apply digit_not_plus|exact Hd].
Qed.

(** X7. Normalizing a normalized phone changes nothing. *)
Theorem sanitize_phone_number_idempotent (phone : option string) :
  sanitize_phone_number (Some (sanitize_phone_number phone))
  = sanitize_phone_number phone.
Proof. apply sanitize_fixed, sanitize_shape. Qed.

(** X8. The digits of the result are all the digits of the input when the
    input has no '+', and otherwise only the digits that come after its
    first '+'. *)
Theorem sanitize_phone_number_surviving_digits (phone : string) :
  (contains_char plus_sign phone = false ->
   sanitize_phone_number (Some phone) = digits_of phone)
  /\ (contains_char plus_sign phone = true ->
      sanitize_phone_number (Some phone)
      = "+" +:+ digits_of (after_first plus_sign phone)).
Proof.
  destruct (is_empty phone) eqn:E.
  { destruct phone; [|discriminate]. split; [reflexivity|discriminate]. }
  rewrite (sanitize_unfold _ E). cbv zeta.
  rewrite contains_char_keep_chars, after_first_keep_chars.
  split; intros C; rewrite C.
  - unfold digits_of. apply not_contains_all in C. clear E.
    induction phone as [|c s IH]; simpl; [reflexivity|].
    simpl in C. apply andb_true_iff in C as [Hc Hs].
    unfold digit_or_plus at 1. apply negb_true_iff in Hc.
    rewrite Hc, orb_false_r. destruct (is_digit c); now rewrite IH.
  - f_equal. generalize (after_first plus_sign phone) as t. intros t.
    unfold digits_of. induction t as [|c s IH]; simpl; [reflexivity|].
    unfold digit_or_plus at 1.
    destruct (is_digit c) eqn:D; simpl.
    + rewrite (digit_not_plus _ D). now rewrite IH.
    + destruct (Ascii.eqb c plus_sign) eqn:P; simpl; [|exact IH].
      unfold not_plus at 1. rewrite P. exact IH.
Qed.

Lemma sanitize_phone_number_surviving_digits_witness :
  sanitize_phone_number (Some "(555) 123-4567") = digits_of "(555) 123-4567"
  /\ sanitize_phone_number (Some "00 +1 (555) 12+34")
     = "+" +:+ digits_of "1 (555) 12+34".
Proof.
  split.
  - apply (proj1 (sanitize_phone_number_surviving_digits "(555) 123-4567")).
    reflexivity.
  - apply (proj2 (sanitize_phone_number_surviving_digits
                    "00 +1 (555) 12+34")).
    reflexivity.
Defined.

(** ** Resolution: errors, bounds and edge cases *)

Lemma ContactTier_of_value_Ok (v : string) (t : ContactTier) :
  ContactTier_of_value v = Ok t -> v = value t.
Proof.
  unfold ContactTier_of_value.
  destruct (String.eqb_spec v (value MAIN_CONTACTS)) as [->|_];
    [now intros [= <-]|].
  destruct (String.eqb_spec v (value TIME_PASS)) as [->|_];
    [now intros [= <-]|].
  destruct (String.eqb_spec v (value NOT_IMPORTANT)) as [->|_];
    [now intros [= <-]|discriminate].
Qed.

Lemma ContactTier_of_value_Raise (v : string) (e : exn) :
  ContactTier_of_value v = Raise e ->
  e = ValueError v /\ forall t, v <> value t.
Proof.
  intros H. split.
  - unfold ContactTier_of_value in H.
    destruct (String.eqb v (value MAIN_CONTACTS)); [discriminate|].
    destruct (String.eqb v (value TIME_PASS)); [discriminate|].
    destruct (String.eqb v (value NOT_IMPORTANT)); [discriminate|].
    now injection H.
  - intros t ->. now rewrite ContactTier_of_value_value in H.
Qed.

Lemma first_matching_tier_None_inv (self : ContactTierManager)
    (clean_name : string) (clean_phone : option string) :
  first_matching_tier self clean_name clean_phone tier_priority = None ->
  forall t, _is_contact_in_tier self clean_name clean_phone t = false.
Proof.
  unfold tier_priority. simpl.
  destruct (_is_contact_in_tier self clean_name clean_phone MAIN_CONTACTS)
    eqn:E1; [discriminate|].
  destruct (_is_contact_in_tier self clean_name clean_phone TIME_PASS)
    eqn:E2; [discriminate|].
  destruct (_is_contact_in_tier self clean_name clean_phone NOT_IMPORTANT)
    eqn:E3; [discriminate|].
  intros _ t. now destruct t.
Qed.

Lemma first_matching_tier_Some_inv (self : ContactTierManager)
    (clean_name : string) (clean_phone : option string) (t : ContactTier) :
  first_matching_tier self clean_name clean_phone tier_priority = Some t ->
  _is_contact_in_tier self clean_name clean_phone t = true
  /\ forall t', precedes t' t ->
                _is_contact_in_tier self clean_name clean_phone t' = false.
Proof.
  unfold tier_priority, precedes. simpl.
  destruct (_is_contact_in_tier self clean_name clean_phone MAIN_CONTACTS)
    eqn:E1.
  { intros [= <-]. split; [exact E1|]. intros t'. simpl. lia. }
  destruct (_is_contact_in_tier self clean_name clean_phone TIME_PASS)
    eqn:E2.
  { intros [= <-]. split; [exact E2|].
    intros t'. destruct t'; simpl; try lia. now intros _. }
  destruct (_is_contact_in_tier self clean_name clean_phone NOT_IMPORTANT)
    eqn:E3; [|discriminate].
  intros [= <-]. split; [exact E3|].
  intros t'. destruct t'; simpl; try lia; now intros _.
Qed.

Lemma default_tier_name_configured (self : ContactTierManager) :
  default_tier_name self
  = default "not_important" (configured_default self).
Proof.
  unfold default_tier_name, configured_default.
  now destruct (Config.default_settings (contact_tiers self)).
Qed.

(** A contact that matches some tier is resolved without error to a
    matching tier that is not scanned after that one. *)
Lemma categorize_contact_at_most (self : ContactTierManager)
    (contact_name : string) (phone_number : option string)
    (tier : ContactTier) :
  tier_matches self contact_name phone_number tier ->
  exists t',
    categorize_contact self contact_name phone_number
    = Ok (t', _get_tier_settings self t')
    /\ rank t' <= rank tier
    /\ tier_matches self contact_name phone_number t'.
Proof.
  intros Hm. apply is_contact_in_tier_spec in Hm. unfold categorize_contact.
  destruct (first_matching_tier self (clean_name_of contact_name)
              (clean_phone_of phone_number) tier_priority) as [t'|] eqn:F.
  - apply first_matching_tier_Some_inv in F as [Ht' Hbefore].
    exists t'. split; [reflexivity|]. split.
    + destruct (le_lt_dec (rank t') (rank tier)) as [H|H]; [exact H|].
      rewrite (Hbefore tier H) in Hm. discriminate.
    + now apply is_contact_in_tier_spec.
  - rewrite (first_matching_tier_None_inv _ _ _ F tier) in Hm. discriminate.
Qed.

(** X10. Resolution raises in one case only: no tier matches the contact and
    the configured [uncategorized_contacts] value is not a tier key; the
    exception is then the [ValueError] of that value. *)
Theorem categorize_contact_raises_iff
    (self : ContactTierManager) (contact_name : string)
    (phone_number : option string) (e : exn) :
  categorize_contact self contact_name phone_number = Raise e
  <-> (forall tier, ~ tier_matches self contact_name phone_number tier)
      /\ exists v, configured_default self = Some v
                   /\ (forall t, v <> value t)
                   /\ e = ValueError v.
Proof.
  split.
  - unfold categorize_contact.
    destruct (first_matching_tier self (clean_name_of contact_name)
                (clean_phone_of phone_number) tier_priority) as [t|] eqn:F;
      [discriminate|].
    destruct (ContactTier_of_value (default_tier_name self)) as [d|e'] eqn:D;
      [discriminate|].
    intros [= ->]. split.
    + intros tier. apply is_contact_in_tier_false.
      now apply first_matching_tier_None_inv.
    + apply ContactTier_of_value_Raise in D as [-> Hbad].
      rewrite default_tier_name_configured in *.
      destruct (configured_default self) as [v|]; simpl in *.
      * now exists v.
      * now destruct (Hbad NOT_IMPORTANT).
  - intros [Hnone (v & Hcfg & Hbad & ->)].
    now apply unmatched_bad_default_raises.
Qed.

(** X11. Whenever the contact matches a tier, resolution succeeds and returns
    a matching tier of the same or higher precedence, with its
    settings. *)
Theorem categorize_contact_bounded_by_match
    (self : ContactTierManager) (contact_name : string)
    (phone_number : option string) (tier : ContactTier) :
  tier_matches self contact_name phone_number tier ->
  exists t',
    categorize_contact self contact_name phone_number
    = Ok (t', _get_tier_settings self t')
    /\ rank t' <= rank tier
    /\ tier_matches self contact_name phone_number t'.
Proof. apply categorize_contact_at_most. Qed.

Lemma categorize_contact_bounded_by_match_witness :
  exists t',
    categorize_contact overlapping_manager "bob" (Some "+1 555 0100")
    = Ok (t', _get_tier_settings overlapping_manager t')
    /\ rank t' <= rank NOT_IMPORTANT
    /\ tier_matches overlapping_manager "bob" (Some "+1 555 0100") t'.
Proof.
  apply categorize_contact_bounded_by_match.
  apply is_contact_in_tier_spec. vm_compute. reflexivity.
Defined.

(** X12. An empty keyword is a substring of every name: a tier that lists it
    matches every contact, so every contact resolves to that tier or to
    one of higher precedence. *)
Theorem empty_keyword_matches_everyone
    (self : ContactTierManager) (tier : ContactTier)
    (contact_name : string) (phone_number : option string) :
  In EmptyString (keywords_of self tier) ->
  exists t',
    categorize_contact self contact_name phone_number
    = Ok (t', _get_tier_settings self t')
    /\ rank t' <= rank tier.
Proof.
  intros Hin.
  destruct (categorize_contact_at_most self contact_name phone_number tier)
    as (t' & E & R & _).
  - right. right. exists EmptyString. split; [exact Hin|].
    now exists EmptyString, (clean_name_of contact_name).
  - now exists t'.
Qed.

Lemma empty_keyword_matches_everyone_witness :
  let self :=
    mkManager
      (Config.mk
         (Some (<["main_contacts" :=
                    TierData.mk None None None (Some [EmptyString]) None]>
                  ∅))
         None)
      no_templates ∅ in
  exists t',
    categorize_contact self "Anyone" None
    = Ok (t', _get_tier_settings self t')
    /\ rank t' <= rank MAIN_CONTACTS.
Proof.
  cbv zeta. apply empty_keyword_matches_everyone.
  vm_compute. left. reflexivity.
Defined.

Lemma phone_hit_empty (self : ContactTierManager) (tier : ContactTier) :
  phone_hit self (Some EmptyString) tier = phone_hit self None tier.
Proof. reflexivity. Qed.

(** X13. A phone argument in which no digit and no '+' is found counts as no
    phone at all: resolution is the same as without a phone. *)
Theorem categorize_contact_digitless_phone
    (self : ContactTierManager) (contact_name phone : string) :
  sanitize_phone_number (Some phone) = EmptyString ->
  categorize_contact self contact_name (Some phone)
  = categorize_contact self contact_name None.
Proof.
  intros E. unfold categorize_contact.
  assert (I : forall t,
             _is_contact_in_tier self (clean_name_of contact_name)
               (clean_phone_of (Some phone)) t
             = _is_contact_in_tier self (clean_name_of contact_name)
                 (clean_phone_of None) t).
  { intros t. rewrite !is_contact_in_tier_hits.
    assert (P : phone_hit self (clean_phone_of (Some phone)) t
                = phone_hit self (clean_phone_of None) t).
    { unfold clean_phone_of.
      destruct (truthy (Some phone)); [|reflexivity].
      rewrite E. apply phone_hit_empty. }
    now rewrite P. }
  assert (F : forall tiers,
             first_matching_tier self (clean_name_of contact_name)
               (clean_phone_of (Some phone)) tiers
             = first_matching_tier self (clean_name_of contact_name)
                 (clean_phone_of None) tiers).
  { induction tiers as [|t tiers IH]; [reflexivity|].
    cbn [first_matching_tier]. now rewrite I, IH. }
  now rewrite F.
Qed.

Lemma categorize_contact_digitless_phone_witness :
  categorize_contact overlapping_manager "Carol" (Some "n/a")
  = categorize_contact overlapping_manager "Carol" None.
Proof. apply categorize_contact_digitless_phone. reflexivity. Defined.

Lemma categorize_contact_raises_iff_witness :
  categorize_contact
    (load_configurations (Some bad_default_config) no_templates)
    "Dave" None
  = Raise (ValueError "vip").
Proof.
  apply (proj2 (categorize_contact_raises_iff
                  (load_configurations (Some bad_default_config)
                     no_templates)
                  "Dave" None (ValueError "vip"))).
  split.
  - intros tier. apply is_contact_in_tier_false.
    destruct tier; vm_compute; reflexivity.
  - exists "vip". split; [reflexivity|]. split; [|reflexivity].
    intros t. destruct t; discriminate.
Defined.

(** ** Rulesets of a fresh manager *)

Lemma categorize_contact_same_lists (s1 s2 : ContactTierManager)
    (contact_name : string) (phone_number : option string) :
  (forall t, names_of s1 t = names_of s2 t) ->
  (forall t, phones_of s1 t = phones_of s2 t) ->
  (forall t, keywords_of s1 t = keywords_of s2 t) ->
  (forall t, _get_tier_settings s1 t = _get_tier_settings s2 t) ->
  default_tier_name s1 = default_tier_name s2 ->
  categorize_contact s1 contact_name phone_number
  = categorize_contact s2 contact_name phone_number.
Proof.
  intros Hn Hp Hk Hs Hd. unfold categorize_contact.
  assert (I : forall cn cp t,
             _is_contact_in_tier s1 cn cp t = _is_contact_in_tier s2 cn cp t).
  { intros cn cp t. rewrite !is_contact_in_tier_hits.
    unfold name_hit, phone_hit, keyword_hit. now rewrite Hn, Hp, Hk. }
  assert (F : forall cn cp tiers,
             first_matching_tier s1 cn cp tiers
             = first_matching_tier s2 cn cp tiers).
  { intros cn cp tiers. induction tiers as [|t tiers IH]; [reflexivity|].
    cbn [first_matching_tier]. now rewrite I, IH. }
  rewrite F, Hd.
  destruct (first_matching_tier s2 _ _ tier_priority) as [t|];
    [now rewrite Hs|].
  destruct (ContactTier_of_value (default_tier_name s2)) as [d|e];
    [now rewrite Hs|reflexivity].
Qed.

(** X14. While the ruleset dict is still empty (as [__init__] leaves it until
    the files are loaded), every contact resolves, without error, to
    NOT_IMPORTANT with the default settings: no reading, no sound, no
    reply. *)
Theorem categorize_contact_empty_ruleset
    (templates : Templates.t) (cache : gmap string ContactInfo.t)
    (contact_name : string) (phone_number : option string) :
  categorize_contact (mkManager empty_config templates cache)
    contact_name phone_number
  = Ok (NOT_IMPORTANT, default_contact_settings).
Proof.
  unfold categorize_contact.
  rewrite first_matching_tier_None; [reflexivity|].
  intros t. rewrite is_contact_in_tier_hits.
  unfold name_hit, phone_hit, keyword_hit, names_of, phones_of, keywords_of,
    tier_data_of. simpl. rewrite lookup_empty. simpl.
  destruct (clean_phone_of phone_number) as [pn|]; [|reflexivity].
  now rewrite andb_false_r.
Qed.

Lemma default_config_lists (templates : Templates.t) (t : ContactTier) :
  names_of (load_configurations None templates) t = []
  /\ phones_of (load_configurations None templates) t = []
  /\ (t <> NOT_IMPORTANT ->
      keywords_of (load_configurations None templates) t = []).
Proof. destruct t; repeat split; try reflexivity; congruence. Qed.

Lemma categorize_contact_default_config (templates : Templates.t)
    (contact_name : string) (phone_number : option string) :
  categorize_contact (load_configurations None templates)
    contact_name phone_number
  = Ok (NOT_IMPORTANT, default_contact_settings).
Proof.
  set (self := load_configurations None templates).
  assert (H : forall t, t <> NOT_IMPORTANT ->
                        _is_contact_in_tier self
                          (clean_name_of contact_name)
                          (clean_phone_of phone_number) t = false).
  { intros t Ht. rewrite is_contact_in_tier_hits.
    unfold name_hit, phone_hit, keyword_hit. subst self.
    destruct (default_config_lists templates t) as (-> & -> & Hk).
    rewrite (Hk Ht). simpl.
    destruct (clean_phone_of phone_number); [|reflexivity].
    now rewrite andb_false_r. }
  unfold categorize_contact, tier_priority. cbn [first_matching_tier].
  rewrite (H MAIN_CONTACTS), (H TIME_PASS) by discriminate.
  destruct (_is_contact_in_tier self _ _ NOT_IMPORTANT); reflexivity.
Qed.

(** X15. With the stock ruleset written on first run and nothing added to it,
    every contact is NOT_IMPORTANT (by keyword or by fallback): the agent
    neither replies, nor plays a sound, nor opens the message. *)
Theorem fresh_manager_ignores_everyone
    (templates : Templates.t) (contact_name : string)
    (phone_number : option string) :
  let self := load_configurations None templates in
  categorize_contact self contact_name phone_number
  = Ok (NOT_IMPORTANT, default_contact_settings)
  /\ fst (should_reply_to_contact contact_name phone_number self) = Ok false
  /\ fst (should_play_notification contact_name phone_number self) = Ok false
  /\ fst (should_open_and_read contact_name phone_number self) = Ok false.
Proof.
  cbv zeta. split; [apply categorize_contact_default_config|].
  unfold should_reply_to_contact, should_play_notification,
    should_open_and_read, bind.
  rewrite get_contact_info_miss by apply lookup_empty.
  rewrite categorize_contact_default_config. now repeat split.
Qed.

(** ** The contact cache: hits, stale entries, keys *)

Lemma get_contact_info_cached (self self' : ContactTierManager)
    (contact_name : string) (phone_number : option string)
    (contact_info : ContactInfo.t) :
  get_contact_info contact_name phone_number self = (Ok contact_info, self') ->
  contact_cache self' !! cache_key contact_name phone_number
  = Some contact_info.
Proof.
  destruct (contact_cache self !! cache_key contact_name phone_number)
    as [ci|] eqn:H.
  - rewrite (get_contact_info_hit _ _ _ _ H). now intros [= <- <-].
  - rewrite (get_contact_info_miss _ _ _ H).
    destruct (categorize_contact self contact_name phone_number)
      as [[t s]|e]; [|discriminate].
    intros [= <- <-]. simpl. apply lookup_insert_eq.
Qed.

(** X16. A query that succeeded is answered from the cache from then on:
    repeating it returns the same [ContactInfo] and changes nothing. *)
Theorem get_contact_info_repeat
    (self self' : ContactTierManager) (contact_name : string)
    (phone_number : option string) (contact_info : ContactInfo.t) :
  get_contact_info contact_name phone_number self = (Ok contact_info, self') ->
  get_contact_info contact_name phone_number self' = (Ok contact_info, self').
Proof.
  intros H. apply get_contact_info_hit.
  now apply (get_contact_info_cached self).
Qed.

Lemma get_contact_info_repeat_witness :
  let self := load_configurations None no_templates in
  let self' := snd (get_contact_info "Bob" (Some "555") self) in
  get_contact_info "Bob" (Some "555") self'
  = (fst (get_contact_info "Bob" (Some "555") self), self').
Proof.
  cbv zeta.
  apply (get_contact_info_repeat (load_configurations None no_templates)).
  reflexivity.
Defined.

(** X17. A cached answer outlives every addition or removal made under other
    arguments: whatever the mutation does to the ruleset, the query still
    returns the entry cached before. *)
Theorem cached_entry_survives_other_mutations
    (self : ContactTierManager) (contact_name : string)
    (phone_number : option string) (contact_info : ContactInfo.t)
    (io_ok : bool) (other_name : string) (other_phone : option string)
    (tier : ContactTier) :
  contact_cache self !! cache_key contact_name phone_number
  = Some contact_info ->
  cache_key other_name other_phone <> cache_key contact_name phone_number ->
  fst (get_contact_info contact_name phone_number
         (snd (add_contact_to_tier io_ok other_name other_phone tier self)))
  = Ok contact_info
  /\ fst (get_contact_info contact_name phone_number
            (snd (remove_contact_from_tier io_ok other_name other_phone tier
                    self)))
     = Ok contact_info.
Proof.
  intros Hc Hne. split.
  - erewrite get_contact_info_hit; [reflexivity|].
    destruct io_ok.
    + rewrite add_contact_to_tier_saved. simpl.
      now rewrite lookup_delete_ne.
    + now rewrite add_contact_to_tier_unsaved.
  - erewrite get_contact_info_hit; [reflexivity|].
    destruct io_ok.
    + rewrite remove_contact_from_tier_saved. simpl.
      now rewrite lookup_delete_ne.
    + now rewrite remove_contact_from_tier_unsaved.
Qed.

Lemma cached_entry_survives_other_mutations_witness :
  let cached :=
    snd (get_contact_info "Bob" None
           (load_configurations None no_templates)) in
  exists contact_info,
    fst (get_contact_info "Bob" None
           (snd (add_contact_to_tier true "bob" None MAIN_CONTACTS cached)))
    = Ok contact_info
    /\ ContactInfo.tier contact_info = NOT_IMPORTANT.
Proof.
  cbv zeta. eexists. split.
  - refine (proj1 (cached_entry_survives_other_mutations _ "Bob" None _
                     true "bob" None MAIN_CONTACTS _ _)).
    + vm_compute. reflexivity.
    + vm_compute. discriminate.
  - reflexivity.
Defined.

(** X18. When the save fails, [add_contact_to_tier] raises
    [ConfigurationError], yet the in-memory ruleset already lists the
    contact and the cache has not been invalidated: an answer cached for
    the same arguments is still returned. *)
Theorem add_contact_failed_save
    (self : ContactTierManager) (contact_name : string)
    (phone_number : option string) (tier : ContactTier) :
  let outcome :=
    add_contact_to_tier false contact_name phone_number tier self in
  fst outcome = Raise (ConfigurationError OSError)
  /\ In contact_name (names_of (snd outcome) tier)
  /\ contact_cache (snd outcome) = contact_cache self
  /\ forall contact_info,
       contact_cache self !! cache_key contact_name phone_number
       = Some contact_info ->
       fst (get_contact_info contact_name phone_number (snd outcome))
       = Ok contact_info.
Proof.
  cbv zeta. split; [reflexivity|].
  split; [rewrite names_of_add; apply append_if_absent_In|].
  split; [reflexivity|].
  intros ci Hc. erewrite get_contact_info_hit; [reflexivity|].
  now rewrite add_contact_to_tier_unsaved.
Qed.

Lemma add_contact_failed_save_witness :
  let cached :=
    snd (get_contact_info "Bob" None
           (load_configurations None no_templates)) in
  let outcome := add_contact_to_tier false "Bob" None MAIN_CONTACTS cached in
  exists contact_info,
    fst (get_contact_info "Bob" None (snd outcome)) = Ok contact_info
    /\ ContactInfo.tier contact_info = NOT_IMPORTANT.
Proof.
  cbv zeta. eexists. split.
  - refine (proj2 (proj2 (proj2 (add_contact_failed_save _ "Bob" None
                                   MAIN_CONTACTS))) _ _).
    vm_compute. reflexivity.
  - reflexivity.
Defined.

(** X19. After [clear_contact_cache] the cache is empty and every query is
    resolved again on the current ruleset. *)
Theorem clear_contact_cache_recomputes
    (self : ContactTierManager) (contact_name : string)
    (phone_number : option string) :
  let cleared := snd (clear_contact_cache self) in
  contact_cache cleared = ∅
  /\ contact_tiers cleared = contact_tiers self
  /\ fst (get_contact_info contact_name phone_number cleared)
     = fresh_contact_info self contact_name phone_number.
Proof.
  cbv zeta. split; [reflexivity|]. split; [reflexivity|].
  rewrite get_contact_info_miss by apply lookup_empty.
  unfold fresh_contact_info.
  change (categorize_contact (snd (clear_contact_cache self)))
    with (categorize_contact self).
  now destruct (categorize_contact self contact_name phone_number)
    as [[t s]|e].
Qed.

Lemma string_app_assoc (a b c : string) :
  (a +:+ b) +:+ c = a +:+ (b +:+ c).
Proof.
  induction a as [|x a IH]; [reflexivity|].
  change (String x ((a +:+ b) +:+ c) = String x (a +:+ (b +:+ c))).
  now rewrite IH.
Qed.

Lemma cache_key_colon (contact_name phone : string) :
  cache_key (contact_name +:+ ":" +:+ phone) None
  = cache_key contact_name (Some (phone +:+ ":no_phone")).
Proof.
  unfold cache_key. rewrite !string_app_assoc. do 2 f_equal.
  now destruct phone.
Qed.

(** X20. The cache key does not separate name and phone reliably: a contact
    named ["n:p"] queried without a phone and a contact named ["n"] with
    the phone ["p:no_phone"] share one key, so the second query is
    answered with the entry of the first, which carries the other name. *)
Theorem cache_key_collision
    (self self' : ContactTierManager) (contact_name phone : string)
    (contact_info : ContactInfo.t) :
  contact_cache self !! cache_key (contact_name +:+ ":" +:+ phone) None
  = None ->
  get_contact_info (contact_name +:+ ":" +:+ phone) None self
  = (Ok contact_info, self') ->
  get_contact_info contact_name (Some (phone +:+ ":no_phone")) self'
  = (Ok contact_info, self')
  /\ ContactInfo.name contact_info = contact_name +:+ ":" +:+ phone
  /\ ContactInfo.phone contact_info = EmptyString.
Proof.
  intros Hmiss Hget. split.
  - apply get_contact_info_hit. rewrite <- cache_key_colon.
    now apply (get_contact_info_cached self).
  - rewrite (get_contact_info_miss _ _ _ Hmiss) in Hget.
    destruct (categorize_contact self _ None) as [[t s]|e]; [|discriminate].
    injection Hget as <- _. now split.
Qed.

Lemma cache_key_collision_witness :
  let self := load_configurations None no_templates in
  let self' := snd (get_contact_info "Mom:home" None self) in
  exists contact_info,
    get_contact_info "Mom" (Some "home:no_phone") self'
    = (Ok contact_info, self')
    /\ ContactInfo.name contact_info = "Mom:home".
Proof.
  cbv zeta. eexists.
  destruct (cache_key_collision (load_configurations None no_templates)
              _ "Mom" "home" _ eq_refl eq_refl) as (H & Hn & _).
  split; [exact H|exact Hn].
Defined.

Lemma append_colon_inj (a b x y : string) :
  all_chars (not_char ":"%char) a = true ->
  all_chars (not_char ":"%char) b = true ->
  a +:+ ":" +:+ x = b +:+ ":" +:+ y ->
  a = b /\ x = y.
Proof.
  revert b. induction a as [|c a IH]; intros [|d b]; cbn [all_chars].
  - intros _ _ E. change (String ":" x = String ":" y) in E.
    injection E as ->. now split.
  - intros _ [Hd _]%andb_true_iff E.
    change (String ":" x = String d (b +:+ ":" +:+ y)) in E.
    injection E as <- _. discriminate Hd.
  - intros [Hc _]%andb_true_iff _ E.
    change (String c (a +:+ ":" +:+ x) = String ":" y) in E.
    injection E as -> _. discriminate Hc.
  - intros [_ Ha]%andb_true_iff [_ Hb]%andb_true_iff E.
    change (String c (a +:+ ":" +:+ x) = String d (b +:+ ":" +:+ y)) in E.
    injection E as -> E.
    destruct (IH b Ha Hb E) as [-> ->]. now split.
Qed.

(** X21. For names without ':' the key does separate the identities: equal
    keys mean the same name and the same phone (an absent or empty phone
    being the text "no_phone"). *)
Theorem cache_key_injective_without_colon
    (name1 name2 : string) (phone1 phone2 : option string) :
  contains_char ":"%char name1 = false ->
  contains_char ":"%char name2 = false ->
  cache_key name1 phone1 = cache_key name2 phone2 ->
  name1 = name2
  /\ or_else phone1 "no_phone" = or_else phone2 "no_phone".
Proof.
  intros H1 H2 E. unfold cache_key in E.
  apply append_colon_inj in E; [exact E| |];
    now apply not_contains_all.
Qed.

Lemma cache_key_injective_without_colon_witness :
  "Bob" = "Bob"
  /\ or_else (Some EmptyString) "no_phone" = or_else None "no_phone".
Proof.
  apply (cache_key_injective_without_colon "Bob" "Bob" (Some EmptyString)
           None); reflexivity.
Defined.

(** ** Additions and removals *)

Lemma ContactTier_eq_dec (t1 t2 : ContactTier) : {t1 = t2} + {t1 <> t2}.
Proof. decide equality. Defined.

Lemma append_if_absent_incl (x y : string) (l : list string) :
  In x l -> In x (append_if_absent y l).
Proof.
  intros H. unfold append_if_absent. destruct (elem y l); [exact H|].
  apply in_or_app. now left.
Qed.

Lemma keywords_settings_add_entries (contact_name : string)
    (phone_number : option string) (tier_data : TierData.t) :
  TierData.by_keywords (add_entries contact_name phone_number tier_data)
  = TierData.by_keywords tier_data
  /\ TierData.settings (add_entries contact_name phone_number tier_data)
     = TierData.settings tier_data.
Proof. now split. Qed.

Lemma tier_data_of_add (io_ok : bool) (self : ContactTierManager)
    (contact_name : string) (phone_number : option string)
    (tier t' : ContactTier) :
  tier_data_of
    (snd (add_contact_to_tier io_ok contact_name phone_number tier self)) t'
  = if ContactTier_eq_dec t' tier
    then add_entries contact_name phone_number (tier_data_of self t')
    else tier_data_of self t'.
Proof.
  destruct (ContactTier_eq_dec t' tier) as [->|Hne].
  - apply tier_data_of_add_same.
  - now apply tier_data_of_add_other.
Qed.

Lemma default_tier_name_add (io_ok : bool) (self : ContactTierManager)
    (contact_name : string) (phone_number : option string)
    (tier : ContactTier) :
  default_tier_name
    (snd (add_contact_to_tier io_ok contact_name phone_number tier self))
  = default_tier_name self.
Proof.
  unfold default_tier_name. now rewrite contact_tiers_after_add.
Qed.

Lemma tier_matches_incl (s1 s2 : ContactTierManager)
    (contact_name : string) (phone_number : option string)
    (tier : ContactTier) :
  (forall x, In x (names_of s1 tier) -> In x (names_of s2 tier)) ->
  (forall x, In x (phones_of s1 tier) -> In x (phones_of s2 tier)) ->
  (forall x, In x (keywords_of s1 tier) -> In x (keywords_of s2 tier)) ->
  tier_matches s1 contact_name phone_number tier ->
  tier_matches s2 contact_name phone_number tier.
Proof.
  intros Hn Hp Hk [(n & Hin & E) | [(p & Hin & E) | (kw & Hin & E)]].
  - left. exists n. auto.
  - right. left. exists p. auto.
  - right. right. exists kw. auto.
Qed.

(** X22. An addition never takes anything away: the lists of the other tiers
    are left as they are, and whatever matched a tier before still
    matches it afterwards.  In particular a contact stays listed under a
    higher tier when it is added to a lower one. *)
Theorem add_contact_keeps_matches
    (io_ok : bool) (self : ContactTierManager) (contact_name : string)
    (phone_number : option string) (tier : ContactTier) :
  let self' :=
    snd (add_contact_to_tier io_ok contact_name phone_number tier self) in
  (forall other,
     other <> tier ->
     names_of self' other = names_of self other
     /\ phones_of self' other = phones_of self other
     /\ keywords_of self' other = keywords_of self other)
  /\ (forall t' queried_name queried_phone,
        tier_matches self queried_name queried_phone t' ->
        tier_matches self' queried_name queried_phone t').
Proof.
  cbv zeta. split.
  - intros other Hne. unfold names_of, phones_of, keywords_of.
    now rewrite tier_data_of_add_other.
  - intros t' qn qp. apply tier_matches_incl; intros x;
      unfold names_of, phones_of, keywords_of; rewrite tier_data_of_add;
      destruct (ContactTier_eq_dec t' tier) as [->|Hne]; try exact id.
    + fold (names_of self tier). intros H.
      change (In x (append_if_absent contact_name (names_of self tier))).
      now apply append_if_absent_incl.
    + fold (phones_of self tier). intros H.
      unfold add_entries. cbn [TierData.by_phone].
      destruct (truthy phone_number); [|exact H].
      cbn [default]. now apply append_if_absent_incl.
Qed.

Lemma add_contact_keeps_matches_witness :
  tier_matches
    (snd (add_contact_to_tier true "bob" None NOT_IMPORTANT
            overlapping_manager))
    "Bob" None MAIN_CONTACTS.
Proof.
  apply (proj2 (add_contact_keeps_matches true overlapping_manager "bob"
                  None NOT_IMPORTANT)).
  apply is_contact_in_tier_spec. vm_compute. reflexivity.
Defined.

(** X23. After an addition, saved or not, every query that spells the same
    normalized name, or gives a phone with the same non-empty normalized
    form, resolves without error to the tier added to or to one of
    higher precedence. *)
Theorem added_contact_resolves_at_least
    (io_ok : bool) (self : ContactTierManager) (contact_name : string)
    (phone_number : option string) (tier : ContactTier)
    (queried_name : string) (queried_phone : option string) :
  clean_name_of queried_name = clean_name_of contact_name
  \/ (truthy phone_number = true
      /\ truthy queried_phone = true
      /\ sanitize_phone_number queried_phone
         = sanitize_phone_number phone_number
      /\ sanitize_phone_number phone_number <> EmptyString) ->
  let self' :=
    snd (add_contact_to_tier io_ok contact_name phone_number tier self) in
  exists t',
    categorize_contact self' queried_name queried_phone
    = Ok (t', _get_tier_settings self' t')
    /\ rank t' <= rank tier.
Proof.
  intros H. cbv zeta.
  destruct (categorize_contact_at_most
              (snd (add_contact_to_tier io_ok contact_name phone_number tier
                      self))
              queried_name queried_phone tier) as (t' & E & R & _).
  - destruct H as [Hn | (Tp & Tq & Hs & Hne)].
    + left. exists contact_name. split; [|now symmetry].
      rewrite names_of_add. apply append_if_absent_In.
    + right. left. exists (sanitize_phone_number phone_number).
      split; [|split; [exact Tq|split]].
      * rewrite phones_of_add, Tp. apply append_if_absent_In.
      * now rewrite Hs.
      * rewrite Hs. apply sanitize_idem.
  - now exists t'.
Qed.

Lemma added_contact_resolves_at_least_witness :
  let self' :=
    snd (add_contact_to_tier true "Bob" (Some "+1 555-0100") TIME_PASS
           (load_configurations None no_templates)) in
  exists t',
    categorize_contact self' "Robert" (Some "+1 (555) 0100")
    = Ok (t', _get_tier_settings self' t')
    /\ rank t' <= rank TIME_PASS.
Proof.
  apply (added_contact_resolves_at_least true
           (load_configurations None no_templates) "Bob"
           (Some "+1 555-0100") TIME_PASS "Robert" (Some "+1 (555) 0100")).
  right. repeat split. discriminate.
Defined.

Lemma contact_tiers_after_remove (io_ok : bool) (self : ContactTierManager)
    (contact_name : string) (phone_number : option string)
    (tier : ContactTier) :
  contact_tiers
    (snd (remove_contact_from_tier io_ok contact_name phone_number tier self))
  = remove_from_config contact_name phone_number tier (contact_tiers self).
Proof. now destruct io_ok. Qed.

Lemma remove_entries_empty (contact_name : string)
    (phone_number : option string) :
  remove_entries contact_name phone_number TierData.empty = TierData.empty.
Proof. unfold remove_entries. simpl. now destruct (truthy phone_number). Qed.

Lemma tier_data_of_remove (io_ok : bool) (self : ContactTierManager)
    (contact_name : string) (phone_number : option string)
    (tier t' : ContactTier) :
  tier_data_of
    (snd (remove_contact_from_tier io_ok contact_name phone_number tier self))
    t'
  = if ContactTier_eq_dec t' tier
    then remove_entries contact_name phone_number (tier_data_of self t')
    else tier_data_of self t'.
Proof.
  unfold tier_data_of. rewrite contact_tiers_after_remove.
  unfold remove_from_config.
  destruct (Config.contact_tiers (contact_tiers self)) as [tiers|] eqn:T.
  - destruct (tiers !! value tier) as [td|] eqn:L.
    + cbn -[remove_entries insert lookup].
      destruct (ContactTier_eq_dec t' tier) as [->|Hne].
      * now rewrite lookup_insert_eq, L.
      * rewrite lookup_insert_ne; [reflexivity|].
        intros E. apply Hne. symmetry. now apply value_inj.
    + rewrite T. cbn -[remove_entries lookup].
      destruct (ContactTier_eq_dec t' tier) as [->|Hne]; [|reflexivity].
      rewrite L. cbn -[remove_entries]. now rewrite remove_entries_empty.
  - rewrite T. cbn -[remove_entries lookup]. rewrite lookup_empty.
    cbn -[remove_entries]. rewrite remove_entries_empty.
    now destruct (ContactTier_eq_dec t' tier).
Qed.

Lemma remove_if_present_absent (x : string) (l : list string) :
  ~ In x l -> remove_if_present x l = l.
Proof.
  intros H%elem_false. unfold remove_if_present. now rewrite H.
Qed.

Lemma remove_first_app (x : string) (l : list string) :
  ~ In x l -> remove_first x (l ++ [x]) = l.
Proof.
  induction l as [|y l IH]; simpl; intros H.
  - now rewrite String.eqb_refl.
  - destruct (String.eqb_spec x y) as [->|Hne]; [tauto|].
    rewrite IH; [reflexivity|tauto].
Qed.

Lemma remove_after_append (x : string) (l : list string) :
  ~ In x l -> remove_if_present x (append_if_absent x l) = l.
Proof.
  intros H. unfold remove_if_present.
  rewrite (proj2 (elem_In _ _) (append_if_absent_In x l)).
  unfold append_if_absent. rewrite (proj2 (elem_false _ _) H).
  now apply remove_first_app.
Qed.

(** X24. Removing a contact whose name and normalized phone are not listed
    under the tier, exactly as passed, leaves the ruleset as it is. *)
Theorem remove_absent_contact_no_change
    (io_ok : bool) (self : ContactTierManager) (contact_name : string)
    (phone_number : option string) (tier : ContactTier) :
  ~ In contact_name (names_of self tier) ->
  (truthy phone_number = true ->
   ~ In (sanitize_phone_number phone_number) (phones_of self tier)) ->
  contact_tiers
    (snd (remove_contact_from_tier io_ok contact_name phone_number tier self))
  = contact_tiers self.
Proof.
  intros Hn Hp. rewrite contact_tiers_after_remove.
  unfold names_of, phones_of, tier_data_of in Hn, Hp.
  unfold remove_from_config.
  destruct (contact_tiers self) as [tiers ds]. simpl in *.
  destruct tiers as [tiers|]; [|reflexivity]. simpl in *.
  destruct (tiers !! value tier) as [td|] eqn:L; [|reflexivity].
  simpl in *. f_equal. f_equal.
  assert (E : remove_entries contact_name phone_number td = td).
  { destruct td as [d names phones kws st]. unfold remove_entries.
    simpl in *. f_equal.
    - destruct names as [l|]; [|reflexivity]. simpl in *.
      now rewrite remove_if_present_absent.
    - destruct (truthy phone_number); [|reflexivity].
      destruct phones as [l|]; [|reflexivity]. simpl in *.
      rewrite remove_if_present_absent; [reflexivity|]. now apply Hp. }
  rewrite E. now apply insert_id.
Qed.

Lemma remove_absent_contact_no_change_witness :
  contact_tiers
    (snd (remove_contact_from_tier true "Bob" (Some "555") MAIN_CONTACTS
            overlapping_manager))
  = contact_tiers overlapping_manager.
Proof.
  apply remove_absent_contact_no_change.
  - vm_compute. intros [H | []]. discriminate H.
  - intros _. vm_compute. intros [].
Defined.

Lemma default_tier_name_remove (io_ok : bool) (self : ContactTierManager)
    (contact_name : string) (phone_number : option string)
    (tier : ContactTier) :
  default_tier_name
    (snd (remove_contact_from_tier io_ok contact_name phone_number tier self))
  = default_tier_name self.
Proof.
  unfold default_tier_name. rewrite contact_tiers_after_remove.
  unfold remove_from_config.
  destruct (Config.contact_tiers (contact_tiers self)) as [tiers|];
    [|reflexivity].
  now destruct (tiers !! value tier).
Qed.

Lemma names_of_remove_add (contact_name : string)
    (phone_number : option string) (tier_data : TierData.t) :
  ~ In contact_name (default [] (TierData.by_name tier_data)) ->
  default []
    (TierData.by_name
       (remove_entries contact_name phone_number
          (add_entries contact_name phone_number tier_data)))
  = default [] (TierData.by_name tier_data).
Proof.
  intros H. unfold remove_entries, add_entries.
  cbn -[append_if_absent remove_if_present sanitize_phone_number truthy].
  now apply remove_after_append.
Qed.

Lemma phones_of_remove_add (contact_name : string)
    (phone_number : option string) (tier_data : TierData.t) :
  (truthy phone_number = true ->
   ~ In (sanitize_phone_number phone_number)
        (default [] (TierData.by_phone tier_data))) ->
  default []
    (TierData.by_phone
       (remove_entries contact_name phone_number
          (add_entries contact_name phone_number tier_data)))
  = default [] (TierData.by_phone tier_data).
Proof.
  intros H. unfold remove_entries, add_entries.
  cbn -[append_if_absent remove_if_present sanitize_phone_number truthy].
  destruct (truthy phone_number); [|reflexivity].
  cbn -[append_if_absent remove_if_present sanitize_phone_number].
  now apply remove_after_append, H.
Qed.

Lemma rest_of_remove_add (contact_name : string)
    (phone_number : option string) (tier_data : TierData.t) :
  TierData.by_keywords
    (remove_entries contact_name phone_number
       (add_entries contact_name phone_number tier_data))
  = TierData.by_keywords tier_data
  /\ TierData.settings
       (remove_entries contact_name phone_number
          (add_entries contact_name phone_number tier_data))
     = TierData.settings tier_data.
Proof. now split. Qed.

(** X25. Adding a contact that was not listed and removing it again, with the
    same arguments, gives back the lists of the tier, and with them the
    resolution of every contact. *)
Theorem add_then_remove_restores_resolution
    (io1 io2 : bool) (self : ContactTierManager) (contact_name : string)
    (phone_number : option string) (tier : ContactTier) :
  ~ In contact_name (names_of self tier) ->
  (truthy phone_number = true ->
   ~ In (sanitize_phone_number phone_number) (phones_of self tier)) ->
  let added :=
    snd (add_contact_to_tier io1 contact_name phone_number tier self) in
  let removed :=
    snd (remove_contact_from_tier io2 contact_name phone_number tier added) in
  names_of removed tier = names_of self tier
  /\ phones_of removed tier = phones_of self tier
  /\ forall queried_name queried_phone,
       categorize_contact removed queried_name queried_phone
       = categorize_contact self queried_name queried_phone.
Proof.
  intros Hn Hp. cbv zeta.
  set (added :=
         snd (add_contact_to_tier io1 contact_name phone_number tier self)).
  set (removed :=
         snd (remove_contact_from_tier io2 contact_name phone_number tier
                added)).
  assert (D : forall t,
             tier_data_of removed t
             = if ContactTier_eq_dec t tier
               then remove_entries contact_name phone_number
                      (add_entries contact_name phone_number
                         (tier_data_of self t))
               else tier_data_of self t).
  { intros t. subst removed added.
    rewrite tier_data_of_remove, tier_data_of_add.
    now destruct (ContactTier_eq_dec t tier). }
  assert (N : forall t, names_of removed t = names_of self t).
  { intros t. unfold names_of. rewrite D.
    destruct (ContactTier_eq_dec t tier) as [->|]; [|reflexivity].
    now apply names_of_remove_add. }
  assert (P : forall t, phones_of removed t = phones_of self t).
  { intros t. unfold phones_of. rewrite D.
    destruct (ContactTier_eq_dec t tier) as [->|]; [|reflexivity].
    now apply phones_of_remove_add. }
  split; [apply N|]. split; [apply P|].
  intros qn qp. apply categorize_contact_same_lists.
  - exact N.
  - exact P.
  - intros t. unfold keywords_of. rewrite D.
    destruct (ContactTier_eq_dec t tier); [|reflexivity].
    now rewrite (proj1 (rest_of_remove_add _ _ _)).
  - intros t. unfold _get_tier_settings. rewrite D.
    destruct (ContactTier_eq_dec t tier); [|reflexivity].
    now rewrite (proj2 (rest_of_remove_add _ _ _)).
  - subst removed added.
    now rewrite default_tier_name_remove, default_tier_name_add.
Qed.

Lemma add_then_remove_restores_resolution_witness :
  let added :=
    snd (add_contact_to_tier true "Dave" (Some "555 0199") MAIN_CONTACTS
           overlapping_manager) in
  let removed :=
    snd (remove_contact_from_tier true "Dave" (Some "555 0199")
           MAIN_CONTACTS added) in
  names_of removed MAIN_CONTACTS = names_of overlapping_manager MAIN_CONTACTS
  /\ categorize_contact removed "dave" None
     = categorize_contact overlapping_manager "dave" None.
Proof.
  destruct (add_then_remove_restores_resolution true true
              overlapping_manager "Dave" (Some "555 0199") MAIN_CONTACTS)
    as (Hn & _ & Hc).
  - vm_compute. intros [H | []]. discriminate H.
  - intros _. vm_compute. intros [].
  - split; [exact Hn|apply Hc].
Defined.

(** When the name was already listed the round trip is lossy: the
    addition changes nothing and the removal drops the listed entry. *)
Lemma add_then_remove_listed_name (io1 io2 : bool)
    (self : ContactTierManager) (contact_name : string)
    (tier : ContactTier) :
  In contact_name (names_of self tier) ->
  names_of
    (snd (remove_contact_from_tier io2 contact_name None tier
            (snd (add_contact_to_tier io1 contact_name None tier self))))
    tier
  = remove_first contact_name (names_of self tier).
Proof.
  intros H. unfold names_of at 1.
  rewrite tier_data_of_remove, tier_data_of_add.
  destruct (ContactTier_eq_dec tier tier) as [_|Hne]; [|congruence].
  unfold remove_entries, add_entries.
  cbn -[append_if_absent remove_if_present].
  fold (names_of self tier).
  unfold append_if_absent, remove_if_present.
  now rewrite !(proj2 (elem_In _ _) H).
Qed.

Lemma count_occ_remove_first (x y : string) (l : list string) :
  In x l ->
  count_occ string_dec (remove_first x l) y
  = if string_dec x y
    then Nat.pred (count_occ string_dec l y)
    else count_occ string_dec l y.
Proof.
  induction l as [|z l IH]; simpl; [tauto|]. intros H.
  destruct (String.eqb_spec x z) as [->|Hne].
  - destruct (string_dec z y) as [->|Hzy]; reflexivity.
  - destruct H as [H|H]; [congruence|]. simpl. rewrite (IH H).
    destruct (string_dec z y) as [->|Hzy]; [|reflexivity].
    destruct (string_dec x y); [congruence|reflexivity].
Qed.

(** X26. A removal drops one occurrence of the name exactly as passed, the
    first one, and no other entry: the count of that string goes down by
    one and the counts of all other strings stay.  A name listed twice,
    or listed under another spelling, is therefore still listed. *)
Theorem remove_contact_drops_one_occurrence
    (io_ok : bool) (self : ContactTierManager) (contact_name : string)
    (phone_number : option string) (tier : ContactTier) (entry : string) :
  count_occ string_dec
    (names_of
       (snd (remove_contact_from_tier io_ok contact_name phone_number tier
               self))
       tier)
    entry
  = if string_dec contact_name entry
    then Nat.pred (count_occ string_dec (names_of self tier) entry)
    else count_occ string_dec (names_of self tier) entry.
Proof.
  unfold names_of at 1. rewrite tier_data_of_remove.
  destruct (ContactTier_eq_dec tier tier) as [_|Hne]; [|congruence].
  fold (names_of self tier). unfold names_of at 1.
  unfold remove_entries. cbn -[remove_if_present].
  destruct (TierData.by_name (tier_data_of self tier)) as [l|] eqn:L.
  - assert (E : names_of self tier = l) by (unfold names_of; now rewrite L).
    rewrite E. simpl. unfold remove_if_present.
    destruct (elem contact_name l) eqn:H.
    + apply count_occ_remove_first. now apply elem_In.
    + apply elem_false in H.
      destruct (string_dec contact_name entry) as [<-|]; [|reflexivity].
      now rewrite (proj1 (count_occ_not_In string_dec l contact_name) H).
  - assert (E : names_of self tier = []) by (unfold names_of; now rewrite L).
    rewrite E. simpl. now destruct (string_dec contact_name entry).
Qed.

(** ** Errors leave the manager as it was *)

Lemma get_contact_info_raise (self self' : ContactTierManager)
    (contact_name : string) (phone_number : option string) (e : exn) :
  get_contact_info contact_name phone_number self = (Raise e, self') ->
  self' = self
  /\ categorize_contact self contact_name phone_number = Raise e.
Proof.
  destruct (contact_cache self !! cache_key contact_name phone_number)
    as [ci|] eqn:H.
  - rewrite (get_contact_info_hit _ _ _ _ H). discriminate.
  - rewrite (get_contact_info_miss _ _ _ H).
    destruct (categorize_contact self contact_name phone_number)
      as [[t s]|e']; [discriminate|].
    now intros [= -> <-].
Qed.

(** X27. A query can only fail with the error of the resolution, and a failed
    query stores nothing: the manager is unchanged, and the four methods
    built on the query fail with the same error, also leaving it
    unchanged. *)
Theorem failed_query_changes_nothing
    (self self' : ContactTierManager) (contact_name : string)
    (phone_number : option string) (e : exn) :
  get_contact_info contact_name phone_number self = (Raise e, self') ->
  self' = self
  /\ categorize_contact self contact_name phone_number = Raise e
  /\ should_reply_to_contact contact_name phone_number self = (Raise e, self)
  /\ should_play_notification contact_name phone_number self
     = (Raise e, self)
  /\ should_open_and_read contact_name phone_number self = (Raise e, self)
  /\ (forall template_type,
        get_reply_template contact_name phone_number template_type self
        = (Raise e, self))
  /\ get_ai_prompt contact_name phone_number self = (Raise e, self).
Proof.
  intros H. destruct (get_contact_info_raise _ _ _ _ _ H) as [-> Hc].
  split; [reflexivity|]. split; [exact Hc|].
  unfold should_reply_to_contact, should_play_notification,
    should_open_and_read, get_reply_template, get_ai_prompt, bind.
  rewrite H. now repeat split.
Qed.

Lemma failed_query_changes_nothing_witness :
  let self := load_configurations (Some bad_default_config) no_templates in
  get_reply_template "Dave" None "greeting" self
  = (Raise (ValueError "vip"), self).
Proof.
  cbv zeta.
  destruct (failed_query_changes_nothing
              (load_configurations (Some bad_default_config) no_templates)
              _ "Dave" None (ValueError "vip") eq_refl)
    as (_ & _ & _ & _ & _ & H & _).
  apply H.
Defined.
